(** * Wolof-Bridge: the translation pipeline and its error contract

    A shallow embedding of [services/translator.py], [services/data_model.py]
    and the [/process] handler of [main.py].

    Python values are dynamically typed, so everything that crosses a
    service boundary is a [pyval]; operations that Python checks at run
    time ([x[k]], [k in x], [x.get], [x.strip()], [len(x)]) are partial
    and raise the exception CPython raises.  Exceptions, the log and the
    mutable request counter are threaded through a state-and-exception
    monad in which the state survives a raise, as object mutation does in
    Python.  The two remote services and the clock are oracles gathered in
    a [world]. *)

From Stdlib Require Import String Ascii List Bool Arith ZArith Lia DecimalString.
Import ListNotations.
Local Open Scope string_scope.
Set Warnings "-register-all".

(* ===================================================================== *)
(** ** Strings

    A Python [str] is modelled as a [string] whose characters are the code
    points below 256. *)

Definition code (c : ascii) : nat := nat_of_ascii c.

(** [str.isspace] on one code point below 256. *)
Definition isspace (c : ascii) : bool :=
  let n := code c in
  (((9 <=? n) && (n <=? 13)) || ((28 <=? n) && (n <=? 32))
  || (n =? 133) || (n =? 160))%nat.

Fixpoint lstrip (s : string) : string :=
  match s with
  | EmptyString => EmptyString
  | String c s' => if isspace c then lstrip s' else s
  end.

Fixpoint rstrip (s : string) : string :=
  match s with
  | EmptyString => EmptyString
  | String c s' =>
      match rstrip s' with
      | EmptyString => if isspace c then EmptyString else String c EmptyString
      | r => String c r
      end
  end.

(** [s.strip()] *)
Definition strip (s : string) : string := rstrip (lstrip s).

(** [needle in hay] for two strings. *)
Fixpoint contains (needle hay : string) : bool :=
  String.prefix needle hay
  || match hay with
     | EmptyString => false
     | String _ hay' => contains needle hay'
     end.

(** [s[:n]] *)
Definition str_slice_to (n : nat) (s : string) : string := substring 0 n s.

Definition all_space (s : string) : bool :=
  forallb isspace (list_ascii_of_string s).

Definition str_of_nat (n : nat) : string := NilEmpty.string_of_uint (Nat.to_uint n).
Definition str_of_Z (z : Z) : string := NilZero.string_of_int (Z.to_int z).

Fixpoint join (sep : string) (l : list string) : string :=
  match l with
  | [] => ""
  | [x] => x
  | x :: r => x ++ sep ++ join sep r
  end.

(* ===================================================================== *)
(** ** Python values *)

(** A float is observed by the program only through its truth value and
    its printed form. *)
Record pyfloat := { float_repr : string; float_is_zero : bool }.

Inductive pyval :=
| PyNone
| PyBool (b : bool)
| PyInt (z : Z)
| PyFloat (f : pyfloat)
| PyStr (s : string)
| PyList (l : list pyval)
| PyDict (d : list (string * pyval)).

(** [type(v).__name__] *)
Definition type_name (v : pyval) : string :=
  match v with
  | PyNone => "NoneType"
  | PyBool _ => "bool"
  | PyInt _ => "int"
  | PyFloat _ => "float"
  | PyStr _ => "str"
  | PyList _ => "list"
  | PyDict _ => "dict"
  end.

(** [bool(v)] *)
Definition py_truthy (v : pyval) : bool :=
  match v with
  | PyNone => false
  | PyBool b => b
  | PyInt z => negb (z =? 0)%Z
  | PyFloat f => negb (float_is_zero f)
  | PyStr s => negb (s =? "")
  | PyList l => match l with [] => false | _ => true end
  | PyDict d => match d with [] => false | _ => true end
  end.

(** [isinstance(v, str)], [isinstance(v, list)], [isinstance(v, dict)] *)
Definition isinstance_str (v : pyval) : bool :=
  match v with PyStr _ => true | _ => false end.
Definition isinstance_list (v : pyval) : bool :=
  match v with PyList _ => true | _ => false end.
Definition isinstance_dict (v : pyval) : bool :=
  match v with PyDict _ => true | _ => false end.

Fixpoint dict_lookup (k : string) (d : list (string * pyval)) : option pyval :=
  match d with
  | [] => None
  | (k', v) :: d' => if k' =? k then Some v else dict_lookup k d'
  end.

(** *** [repr] and [str] *)

Definition quote1 : ascii := ascii_of_nat 39.
Definition quote2 : ascii := ascii_of_nat 34.
Definition backslash : ascii := ascii_of_nat 92.
Definition chr (c : ascii) : string := String c EmptyString.

Definition hex_digit (n : nat) : ascii :=
  match get n "0123456789abcdef" with Some c => c | None => "0"%char end.

Definition isprintable (c : ascii) : bool :=
  let n := code c in
  (((32 <=? n) && (n <=? 126)) || ((161 <=? n) && negb (n =? 173)))%nat.

Definition repr_char (q c : ascii) : string :=
  if Ascii.eqb c backslash then String backslash (chr backslash)
  else if Ascii.eqb c q then String backslash (chr q)
  else if (code c =? 9)%nat then String backslash "t"
  else if (code c =? 10)%nat then String backslash "n"
  else if (code c =? 13)%nat then String backslash "r"
  else if isprintable c then chr c
  else String backslash
         (String "x" (String (hex_digit (code c / 16)) (chr (hex_digit (code c mod 16))))).

Fixpoint repr_chars (q : ascii) (s : string) : string :=
  match s with
  | EmptyString => EmptyString
  | String c s' => repr_char q c ++ repr_chars q s'
  end.

(** [repr(s)] for a string: single quotes unless the string holds a single
    quote and no double quote. *)
Definition str_repr (s : string) : string :=
  let q := if contains (chr quote1) s && negb (contains (chr quote2) s)
           then quote2 else quote1 in
  chr q ++ repr_chars q s ++ chr q.

Fixpoint py_repr (v : pyval) : string :=
  match v with
  | PyNone => "None"
  | PyBool b => if b then "True" else "False"
  | PyInt z => str_of_Z z
  | PyFloat f => float_repr f
  | PyStr s => str_repr s
  | PyList l => "[" ++ join ", " (map py_repr l) ++ "]"
  | PyDict d =>
      "{" ++ join ", " (map (fun kv => str_repr (fst kv) ++ ": " ++ py_repr (snd kv)) d) ++ "}"
  end.

(** [str(v)], which is also how an f-string renders [v]. *)
Definition py_str (v : pyval) : string :=
  match v with
  | PyStr s => s
  | _ => py_repr v
  end.

(* ===================================================================== *)
(** ** Exceptions *)

Inductive exn :=
| ValueError (msg : string)
| TranslationError (msg : string)       (* translator.TranslationError *)
| KeyError (key : pyval)
| TypeError (msg : string)
| AttributeError (msg : string)
| IndexError (msg : string)
| Timeout (msg : string)                (* requests.exceptions.Timeout *)
| RequestException (msg : string)       (* any other requests exception *)
| JSONDecodeError (msg : string)        (* requests.exceptions.JSONDecodeError *)
| Exception (msg : string)              (* a bare Exception(msg) *)
| OtherError (cls msg : string).        (* any other subclass of Exception *)

(** [str(e)] *)
Definition exn_str (e : exn) : string :=
  match e with
  | KeyError key => py_repr key
  | ValueError msg | TranslationError msg | TypeError msg | AttributeError msg
  | IndexError msg | Timeout msg | RequestException msg | JSONDecodeError msg
  | Exception msg | OtherError _ msg => msg
  end.

(** The classes the [except] clauses of the translator test for.  The
    JSON error of [requests] derives from both [json.JSONDecodeError] and
    [RequestException]. *)
Definition is_Timeout (e : exn) : bool :=
  match e with Timeout _ => true | _ => false end.
Definition is_RequestException (e : exn) : bool :=
  match e with Timeout _ | RequestException _ | JSONDecodeError _ => true | _ => false end.
Definition is_JSONDecodeError (e : exn) : bool :=
  match e with JSONDecodeError _ => true | _ => false end.
Definition is_ValueError (e : exn) : bool :=
  match e with ValueError _ => true | _ => false end.
Definition is_TranslationError (e : exn) : bool :=
  match e with TranslationError _ => true | _ => false end.

Inductive result (A : Type) :=
| Ok (a : A)
| Raise (e : exn).
Arguments Ok {A} a.
Arguments Raise {A} e.

(** *** Run-time checked operations on values *)

(** [v == key] for a string [key]. *)
Definition eq_str (key : string) (v : pyval) : bool :=
  match v with
  | PyStr s => s =? key
  | _ => false
  end.

(** [key in container] for a string [key]. *)
Definition py_in (key : string) (container : pyval) : result bool :=
  match container with
  | PyDict d => Ok (match dict_lookup key d with Some _ => true | None => false end)
  | PyList l =>
      Ok (existsb (eq_str key) l)
  | PyStr s => Ok (contains key s)
  | _ => Raise (TypeError ("argument of type '" ++ type_name container ++ "' is not iterable"))
  end.

(** [obj[key]] for a string [key]. *)
Definition py_getitem (obj : pyval) (key : string) : result pyval :=
  match obj with
  | PyDict d =>
      match dict_lookup key d with
      | Some v => Ok v
      | None => Raise (KeyError (PyStr key))
      end
  | PyList _ => Raise (TypeError "list indices must be integers or slices, not str")
  | PyStr _ => Raise (TypeError "string indices must be integers, not 'str'")
  | _ => Raise (TypeError ("'" ++ type_name obj ++ "' object is not subscriptable"))
  end.

(** [obj[0]] *)
Definition py_getitem0 (obj : pyval) : result pyval :=
  match obj with
  | PyList l =>
      match l with
      | x :: _ => Ok x
      | [] => Raise (IndexError "list index out of range")
      end
  | PyStr s =>
      match s with
      | String c _ => Ok (PyStr (chr c))
      | EmptyString => Raise (IndexError "string index out of range")
      end
  | PyDict _ => Raise (KeyError (PyInt 0))
  | _ => Raise (TypeError ("'" ++ type_name obj ++ "' object is not subscriptable"))
  end.

(** [obj.get(key, default)] *)
Definition py_get (obj : pyval) (key : string) (default : pyval) : result pyval :=
  match obj with
  | PyDict d =>
      Ok (match dict_lookup key d with Some v => v | None => default end)
  | _ => Raise (AttributeError ("'" ++ type_name obj ++ "' object has no attribute 'get'"))
  end.

(** [obj[:n]] *)
Definition py_slice_to (n : nat) (obj : pyval) : result pyval :=
  match obj with
  | PyStr s => Ok (PyStr (str_slice_to n s))
  | PyList l => Ok (PyList (firstn n l))
  | PyDict _ => Raise (TypeError "unhashable type: 'slice'")
  | _ => Raise (TypeError ("'" ++ type_name obj ++ "' object is not subscriptable"))
  end.

(** [len(obj)] *)
Definition py_len (obj : pyval) : result nat :=
  match obj with
  | PyStr s => Ok (String.length s)
  | PyList l => Ok (List.length l)
  | PyDict d => Ok (List.length d)
  | _ => Raise (TypeError ("object of type '" ++ type_name obj ++ "' has no len()"))
  end.

(** [obj.strip()] *)
Definition py_strip (obj : pyval) : result pyval :=
  match obj with
  | PyStr s => Ok (PyStr (strip s))
  | _ => Raise (AttributeError ("'" ++ type_name obj ++ "' object has no attribute 'strip'"))
  end.

(* ===================================================================== *)
(** ** The world outside the process and the state inside it *)

(** Query parameters of the POST to the translation API. *)
Record params := {
  q : pyval;
  source : string;
  target : string;
  key : string }.

Record response := {
  status_code : Z;
  (** what [response.json()] gives: the parsed body, or the message of
      the JSON decoding error *)
  json : string + pyval }.

Inductive http_outcome :=
| HttpRaises (e : exn)
| HttpResponse (r : response).

(** The chat completion as the program reads it: the [message.content]
    of each choice. *)
Inductive groq_outcome :=
| GroqRaises (e : exn)
| ChatCompletion (choices : list pyval).

(** Each remote service is a function of the request it is sent; the
    clock is read once per request identifier, and [now n] is its reading
    for the [n]-th identifier. *)
Record world := {
  (** [datetime.now().strftime('%Y%m%d%H%M%S')] *)
  now : nat -> string;
  (** [requests.post(url, params=..., timeout=...)] *)
  requests_post : string -> params -> Z -> http_outcome;
  (** [Groq(api_key).chat.completions.create(messages=..., model=...)] *)
  chat_completions_create : string -> pyval -> string -> groq_outcome }.

Inductive net_call :=
| HttpPost (url : string) (p : params) (timeout : Z)
| GroqCreate (api_key : string) (messages : pyval) (model : string).

Inductive level := INFO | ERROR.

Record TranslationService := {
  api_key : string;
  base_url : string;
  supported_languages : list (string * string);
  request_id : nat }.

Record DataModelService := {
  groq_api_key : string;
  model_name : string }.

Record state := {
  translation_service : TranslationService;
  data_model_service : DataModelService;
  log : list (level * string);
  net_calls : list net_call }.

(** *** The monad *)

Definition M (A : Type) : Type := state -> result A * state.

Definition ret {A} (a : A) : M A := fun st => (Ok a, st).
Definition raise {A} (e : exn) : M A := fun st => (Raise e, st).
Definition bind {A B} (m : M A) (f : A -> M B) : M B :=
  fun st =>
    match m st with
    | (Ok a, st') => f a st'
    | (Raise e, st') => (Raise e, st')
    end.
Definition lift {A} (r : result A) : M A := fun st => (r, st).

(** [try: body  except Exception as e: handler e] *)
Definition try_except {A} (body : M A) (handler : exn -> M A) : M A :=
  fun st =>
    match body st with
    | (Ok a, st') => (Ok a, st')
    | (Raise e, st') => handler e st'
    end.

Declare Scope py_scope.
Delimit Scope py_scope with py.
Notation "x <- m ;; k" := (bind m (fun x => k))
  (at level 61, m at next level, right associativity) : py_scope.
Notation "m ;; k" := (bind m (fun _ => k))
  (at level 61, right associativity) : py_scope.
Local Open Scope py_scope.

(** State updates: a line appended to the log, a call appended to the
    trace of outbound calls, the counter of the translation service set. *)
Definition add_log (entry : level * string) (st : state) : state :=
  {| translation_service := translation_service st;
     data_model_service := data_model_service st;
     log := log st ++ [entry];
     net_calls := net_calls st |}.

Definition add_call (c : net_call) (st : state) : state :=
  {| translation_service := translation_service st;
     data_model_service := data_model_service st;
     log := log st;
     net_calls := net_calls st ++ [c] |}.

Definition set_request_id (n : nat) (st : state) : state :=
  {| translation_service :=
       {| api_key := api_key (translation_service st);
          base_url := base_url (translation_service st);
          supported_languages := supported_languages (translation_service st);
          request_id := n |};
     data_model_service := data_model_service st;
     log := log st;
     net_calls := net_calls st |}.

Definition logger_info (msg : string) : M unit :=
  fun st => (Ok tt, add_log (INFO, msg) st).

Definition logger_error (msg : string) : M unit :=
  fun st => (Ok tt, add_log (ERROR, msg) st).

Definition record_call (c : net_call) : M unit :=
  fun st => (Ok tt, add_call c st).

(** [f"{v[:100]}{'...' if len(v) > 100 else ''}"], the preview both log
    lines of [translate] print. *)
Definition preview (v : pyval) : result string :=
  match py_slice_to 100 v with
  | Raise e => Raise e
  | Ok head =>
      match py_len v with
      | Raise e => Raise e
      | Ok n => Ok (py_str head ++ (if (100 <? n)%nat then "..." else ""))
      end
  end.

(* ===================================================================== *)
(** ** services/translator.py *)

Module Translator.

(** [TranslationService.__init__], given [os.getenv]. *)
Definition init (getenv : string -> option string) : result TranslationService :=
  match getenv "GOOGLE_TRANSLATE_API_KEY" with
  | Some (String c k) =>
      Ok {| api_key := String c k;
            base_url := "https://translation.googleapis.com/language/translate/v2";
            supported_languages := [("wo", "Wolof"); ("en", "English")];
            request_id := 0 |}
  | _ => Raise (ValueError "Google Translate API key not found in environment variables")
  end.

Definition self : M TranslationService :=
  fun st => (Ok (translation_service st), st).

(** The dict [supported_languages], from a code to the name of the
    language. *)
Definition lang_lookup (k : string) (d : list (string * string)) : option string :=
  option_map snd (find (fun kv => fst kv =? k) d).

(** [self.supported_languages[lang]] *)
Definition supported_languages_getitem (lang : string) : M string :=
  this <- self ;;
  match lang_lookup lang (supported_languages this) with
  | Some name => ret name
  | None => raise (KeyError (PyStr lang))
  end.

(** [lang in self.supported_languages] *)
Definition supported (this : TranslationService) (lang : string) : bool :=
  match lang_lookup lang (supported_languages this) with
  | Some _ => true
  | None => false
  end.

Definition get_request_id (w : world) : M string :=
  fun st =>
    let st' := set_request_id (S (request_id (translation_service st))) st in
    let n := request_id (translation_service st') in
    (Ok (now w n ++ "-" ++ str_of_nat n), st').

Definition validate_language_codes (source_lang target_lang : string) : M unit :=
  this <- self ;;
  if negb (supported this source_lang) then
    logger_error ("Unsupported source language: " ++ source_lang) ;;
    raise (TranslationError ("Unsupported source language: " ++ source_lang))
  else if negb (supported this target_lang) then
    logger_error ("Unsupported target language: " ++ target_lang) ;;
    raise (TranslationError ("Unsupported target language: " ++ target_lang))
  else ret tt.

Definition validate_translation_response (response_data : pyval) : M unit :=
  if negb (isinstance_dict response_data) then
    raise (TranslationError "Invalid response type from translation service")
  else
    has_data <- lift (py_in "data" response_data) ;;
    if negb has_data then
      raise (TranslationError "Missing 'data' in translation response")
    else
      data <- lift (py_getitem response_data "data") ;;
      has_translations <- lift (py_in "translations" data) ;;
      if negb has_translations then
        raise (TranslationError "Missing 'translations' in translation response")
      else
        data <- lift (py_getitem response_data "data") ;;
        translations <- lift (py_getitem data "translations") ;;
        if negb (py_truthy translations) || negb (isinstance_list translations) then
          raise (TranslationError "Invalid translations format in response")
        else
          first <- lift (py_getitem0 translations) ;;
          has_text <- lift (py_in "translatedText" first) ;;
          if negb has_text then
            raise (TranslationError "Missing translated text in response")
          else ret tt.

(** [response.json()] *)
Definition response_json (r : response) : M pyval :=
  match json r with
  | inl msg => raise (JSONDecodeError msg)
  | inr v => ret v
  end.

(** [requests.post(self.base_url, params=params, timeout=10)] *)
Definition post (w : world) (url : string) (p : params) (timeout : Z) : M response :=
  record_call (HttpPost url p timeout) ;;
  match requests_post w url p timeout with
  | HttpRaises e => raise e
  | HttpResponse r => ret r
  end.

(** The statements of the inner [try] of [translate]. *)
Definition read_translation (request_id : string) (r : response) : M pyval :=
  result <- response_json r ;;
  validate_translation_response result ;;
  data <- lift (py_getitem result "data") ;;
  translations <- lift (py_getitem data "translations") ;;
  first <- lift (py_getitem0 translations) ;;
  translation <- lift (py_getitem first "translatedText") ;;
  if negb (py_truthy translation) then
    logger_error ("[" ++ request_id ++ "] Empty translation received") ;;
    raise (TranslationError "Empty translation received")
  else
    logger_info ("[" ++ request_id ++ "] Successfully translated text") ;;
    shown <- lift (preview translation) ;;
    logger_info ("[" ++ request_id ++ "] Translation result: " ++ shown) ;;
    ret translation.

(** [translate] from the status test to the end of the outer [try]. *)
Definition check_response (request_id : string) (response : response) : M pyval :=
  if (status_code response =? 400)%Z then
    body <- response_json response ;;
    error_data <- lift (py_get body "error" (PyDict [])) ;;
    error_message <- lift (py_get error_data "message" (PyStr "Invalid request")) ;;
    logger_error ("[" ++ request_id ++ "] Translation API validation error: "
                  ++ py_str error_message) ;;
    raise (TranslationError ("Translation request invalid: " ++ py_str error_message))
  else if (status_code response =? 403)%Z then
    logger_error ("[" ++ request_id ++ "] Translation API authentication failed") ;;
    raise (TranslationError "Authentication failed. Please check your API key.")
  else if negb (status_code response =? 200)%Z then
    logger_error ("[" ++ request_id ++ "] Translation API error: Status "
                  ++ str_of_Z (status_code response)) ;;
    raise (TranslationError ("Translation service error: HTTP "
                             ++ str_of_Z (status_code response)))
  else
    try_except (read_translation request_id response)
      (fun e =>
         if is_JSONDecodeError e then
           logger_error ("[" ++ request_id ++ "] Failed to parse translation response: "
                         ++ exn_str e) ;;
           raise (TranslationError "Invalid response format from translation service")
         else raise e).

(** The parameters of the outbound call. *)
Definition make_params (this : TranslationService) (text : pyval)
    (source_lang target_lang : string) : params :=
  {| q := text; source := source_lang; target := target_lang; key := api_key this |}.

(** The statements of the outer [try] of [translate]. *)
Definition request_translation (w : world) (request_id : string)
    (text : pyval) (source_lang target_lang : string) : M pyval :=
  validate_language_codes source_lang target_lang ;;
  text <- lift (py_strip text) ;;
  this <- self ;;
  let params := make_params this text source_lang target_lang in
  logger_info ("[" ++ request_id ++ "] Sending request to translation API") ;;
  response <- post w (base_url this) params 10 ;;
  logger_info ("[" ++ request_id ++ "] Received response with status code: "
               ++ str_of_Z (status_code response)) ;;
  check_response request_id response.

(** The three [except] clauses of [translate], in order. *)
Definition translation_failed (request_id : string) (e : exn) : M pyval :=
  if is_Timeout e then
    logger_error ("[" ++ request_id ++ "] Translation request timed out") ;;
    raise (TranslationError "Translation service timeout. Please try again.")
  else if is_RequestException e then
    logger_error ("[" ++ request_id ++ "] Translation request failed: " ++ exn_str e) ;;
    raise (TranslationError ("Translation service error: " ++ exn_str e))
  else
    logger_error ("[" ++ request_id ++ "] Unexpected error during translation: "
                  ++ exn_str e) ;;
    raise (TranslationError ("Translation failed: " ++ exn_str e)).

Definition translate (w : world) (text : pyval) (source_lang target_lang : string)
    : M pyval :=
  if negb (py_truthy text) || negb (isinstance_str text) then
    logger_error "Invalid input: text must be a non-empty string" ;;
    raise (ValueError "Text must be a non-empty string")
  else
    request_id <- get_request_id w ;;
    logger_info ("[" ++ request_id ++ "] Starting translation request") ;;
    source_name <- supported_languages_getitem source_lang ;;
    target_name <- supported_languages_getitem target_lang ;;
    logger_info ("[" ++ request_id ++ "] From " ++ source_name ++ " to " ++ target_name) ;;
    shown <- lift (preview text) ;;
    logger_info ("[" ++ request_id ++ "] Input text: " ++ shown) ;;
    try_except (request_translation w request_id text source_lang target_lang)
               (translation_failed request_id).

End Translator.

(* ===================================================================== *)
(** ** services/data_model.py *)

Module DataModel.

(** [DataModelService.__init__], given [os.getenv]. *)
Definition init (getenv : string -> option string) : result DataModelService :=
  match getenv "GROQ_API_KEY" with
  | Some (String c k) =>
      Ok {| groq_api_key := String c k; model_name := "llama3-8b-8192" |}
  | _ => Raise (ValueError "GROQ API key not found in environment variables")
  end.

Definition self : M DataModelService :=
  fun st => (Ok (data_model_service st), st).

(** [self.client.chat.completions.create(messages=..., model=...)] *)
Definition create (w : world) (api_key : string) (messages : pyval) (model : string)
    : M (list pyval) :=
  record_call (GroqCreate api_key messages model) ;;
  match chat_completions_create w api_key messages model with
  | GroqRaises e => raise e
  | ChatCompletion choices => ret choices
  end.

(** [chat_completion.choices[0].message.content] *)
Definition first_content (choices : list pyval) : result pyval :=
  match choices with
  | content :: _ => Ok content
  | [] => Raise (IndexError "list index out of range")
  end.

Definition query_model (w : world) (prompt : pyval) : M pyval :=
  try_except
    (this <- self ;;
     chat_completion <-
       create w (groq_api_key this)
         (PyList [PyDict [("role", PyStr "user"); ("content", prompt)]])
         (model_name this) ;;
     lift (first_content chat_completion))
    (fun e =>
       logger_error ("Error querying Ollama model: " ++ exn_str e) ;;
       raise (Exception "Failed to query the model.")).

Definition process_query (w : world) (query : pyval) : M pyval :=
  if negb (py_truthy query) || negb (isinstance_str query) then
    raise (ValueError "Query must be a non-empty string")
  else
    try_except
      (cleaned_query <- lift (py_strip query) ;;
       response <- query_model w cleaned_query ;;
       logger_info ("Model response for query: " ++ py_str query) ;;
       ret response)
      (fun e =>
         logger_error ("Error processing query: " ++ exn_str e) ;;
         raise (Exception ("Query processing failed: " ++ exn_str e))).

End DataModel.

(* ===================================================================== *)
(** ** main.py *)

Module Main.

(** The two service objects the handler calls; the application binds them
    to the real clients, a test to stubs. *)
Record services := {
  translation_service_translate : pyval -> string -> string -> M pyval;
  data_model_service_process_query : pyval -> M pyval }.

Definition app_services (w : world) : services :=
  {| translation_service_translate := Translator.translate w;
     data_model_service_process_query := DataModel.process_query w |}.

(** The inbound request: what [request.get_json()] gives. *)
Record request := { get_json : result pyval }.

(** A Flask response: the JSON body and the status. *)
Record http_reply := { body : pyval; status : Z }.

Definition jsonify (d : list (string * pyval)) (st : Z) : http_reply :=
  {| body := PyDict d; status := st |}.

(** The statements of the [try] of the [/process] handler. *)
Definition pipeline (svc : services) (req : request) : M http_reply :=
  data <- lift (get_json req) ;;
  wolof_query <- lift (py_get data "query" (PyStr "")) ;;
  if negb (py_truthy wolof_query) then
    ret (jsonify [("error", PyStr "No query provided")] 400)
  else
    logger_info ("Translating query from Wolof to French: " ++ py_str wolof_query) ;;
    french_query <- translation_service_translate svc wolof_query "wo" "en" ;;
    logger_info ("Processing French query: " ++ py_str french_query) ;;
    french_response <- data_model_service_process_query svc french_query ;;
    logger_info ("Translating response to Wolof: " ++ py_str french_response) ;;
    wolof_response <- translation_service_translate svc french_response "en" "wo" ;;
    ret (jsonify [("original_query", wolof_query);
                  ("french_query", french_query);
                  ("french_response", french_response);
                  ("wolof_response", wolof_response)] 200).

Definition process_query (svc : services) (req : request) : M http_reply :=
  try_except (pipeline svc req)
    (fun e =>
       logger_error ("Error processing query: " ++ exn_str e) ;;
       ret (jsonify [("error", PyStr (exn_str e))] 500)).

End Main.

(* ===================================================================== *)
(** ** Vocabulary of the statements *)

(** The result of a computation started in [st], and the state it leaves. *)
Definition result_of {A} (m : M A) (st : state) : result A := fst (m st).
Definition state_after {A} (m : M A) (st : state) : state := snd (m st).

(** A computation is [quiet] when it makes no outbound call, and
    [appends] when all it does to the trace of calls is to extend it. *)
Definition quiet {A} (m : M A) : Prop :=
  forall st, net_calls (state_after m st) = net_calls st.

Definition appends {A} (m : M A) : Prop :=
  forall st, exists calls, net_calls (state_after m st) = (net_calls st ++ calls)%list.

(** *** Stages of [translate] *)

(** The correlation identifier of the next call. *)
Definition next_id (w : world) (st : state) : string :=
  now w (S (request_id (translation_service st)))
  ++ "-" ++ str_of_nat (S (request_id (translation_service st))).

(** The state in which the outer [try] of [translate] is entered. *)
Definition started (w : world) (shown source_name target_name : string) (st : state)
    : state :=
  add_log (INFO, "[" ++ next_id w st ++ "] Input text: " ++ shown)
    (add_log (INFO, "[" ++ next_id w st ++ "] From " ++ source_name ++ " to " ++ target_name)
       (add_log (INFO, "[" ++ next_id w st ++ "] Starting translation request")
          (set_request_id (S (request_id (translation_service st))) st))).

(** The state in which the POST has been sent, and the one in which its
    answer has been logged. *)
Definition sent (rid : string) (p : params) (st : state) : state :=
  add_call (HttpPost (base_url (translation_service st)) p 10)
    (add_log (INFO, "[" ++ rid ++ "] Sending request to translation API") st).

Definition received (rid : string) (r : response) (st : state) : state :=
  add_log (INFO, "[" ++ rid ++ "] Received response with status code: "
                 ++ str_of_Z (status_code r)) st.

(** The message the three [except] clauses of [translate] give to a
    failure. *)
Definition failure_message (e : exn) : string :=
  if is_Timeout e then "Translation service timeout. Please try again."
  else if is_RequestException e then "Translation service error: " ++ exn_str e
  else "Translation failed: " ++ exn_str e.

(** What the inner [except json.JSONDecodeError] clause makes of a
    failure. *)
Definition reparse (e : exn) : exn :=
  if is_JSONDecodeError e
  then TranslationError "Invalid response format from translation service"
  else e.

(** *** What a well-shaped response carries *)

(** [v[k]] when [v] is a dict holding [k]. *)
Definition field (k : string) (v : pyval) : option pyval :=
  match v with
  | PyDict d => dict_lookup k d
  | _ => None
  end.

(** [body["data"]["translations"][0]["translatedText"]] when every step
    of the path exists. *)
Definition translated_text (body : pyval) : option pyval :=
  match field "data" body with
  | Some data =>
      match field "translations" data with
      | Some (PyList (first :: _)) => field "translatedText" first
      | _ => None
      end
  | None => None
  end.

Definition translated_text_of (r : response) : option pyval :=
  match json r with
  | inr body => translated_text body
  | inl _ => None
  end.

(** The values [v[:100]] and [len(v)] accept. *)
Definition sliceable (v : pyval) : bool := isinstance_str v || isinstance_list v.

(** Two service objects that differ at most in their request counter. *)
Definition same_configuration (a b : TranslationService) : Prop :=
  api_key a = api_key b
  /\ base_url a = base_url b
  /\ supported_languages a = supported_languages b.

(** *** Stages of the handler *)

(** The steps of the pipeline after the first translation. *)
Definition after_translation (svc : Main.services) (wolof_query french_query : pyval)
    : M Main.http_reply :=
  logger_info ("Processing French query: " ++ py_str french_query) ;;
  french_response <- Main.data_model_service_process_query svc french_query ;;
  logger_info ("Translating response to Wolof: " ++ py_str french_response) ;;
  wolof_response <- Main.translation_service_translate svc french_response "en" "wo" ;;
  ret (Main.jsonify [("original_query", wolof_query);
                     ("french_query", french_query);
                     ("french_response", french_response);
                     ("wolof_response", wolof_response)] 200).

(** The [except Exception] clause of the handler. *)
Definition server_error (e : exn) : M Main.http_reply :=
  logger_error ("Error processing query: " ++ exn_str e) ;;
  ret (Main.jsonify [("error", PyStr (exn_str e))] 500).

(** *** Frames, log lines and classes of exceptions *)

(** A computation [keeps] a part of the state when it leaves it as it
    was. *)
Definition keeps {X A} (part : state -> X) (m : M A) : Prop :=
  forall st, part (state_after m st) = part st.

(** The tag the log lines of one translation call start with, and the
    computations all of whose log lines carry it. *)
Definition tag (rid : string) : string := "[" ++ rid ++ "]".

Definition tagged (rid : string) (entry : level * string) : bool :=
  String.prefix (tag rid) (snd entry).

Definition logs_tagged {A} (rid : string) (m : M A) : Prop :=
  forall st, exists lines,
    log (state_after m st) = (log st ++ lines)%list
    /\ forallb (tagged rid) lines = true.

Definition is_KeyError (e : exn) : bool :=
  match e with KeyError _ => true | _ => false end.
Definition is_TypeError (e : exn) : bool :=
  match e with TypeError _ => true | _ => false end.

(** The service object after one more request identifier was drawn. *)
Definition counted (this : TranslationService) : TranslationService :=
  {| api_key := api_key this;
     base_url := base_url this;
     supported_languages := supported_languages this;
     request_id := S (request_id this) |}.

(** The five defects [validate_translation_response] names, each with
    the message it gives. *)
Inductive defect : pyval -> string -> Prop :=
| not_an_object body :
    isinstance_dict body = false ->
    defect body "Invalid response type from translation service"
| no_data b :
    dict_lookup "data" b = None ->
    defect (PyDict b) "Missing 'data' in translation response"
| no_translations b d :
    dict_lookup "data" b = Some (PyDict d) ->
    dict_lookup "translations" d = None ->
    defect (PyDict b) "Missing 'translations' in translation response"
| bad_translations b d translations :
    dict_lookup "data" b = Some (PyDict d) ->
    dict_lookup "translations" d = Some translations ->
    py_truthy translations && isinstance_list translations = false ->
    defect (PyDict b) "Invalid translations format in response"
| no_translated_text b d entry rest :
    dict_lookup "data" b = Some (PyDict d) ->
    dict_lookup "translations" d = Some (PyList (PyDict entry :: rest)) ->
    dict_lookup "translatedText" entry = None ->
    defect (PyDict b) "Missing translated text in response".

(* ===================================================================== *)
(** ** Fixtures *)

(** The environment of a test process. *)
Definition test_env (name : string) : option string :=
  if name =? "GOOGLE_TRANSLATE_API_KEY" then Some "test-key"
  else if name =? "GROQ_API_KEY" then Some "groq-key"
  else None.

Definition test_service : TranslationService :=
  {| api_key := "test-key";
     base_url := "https://translation.googleapis.com/language/translate/v2";
     supported_languages := [("wo", "Wolof"); ("en", "English")];
     request_id := 0 |}.

(** The state of the process once both services are constructed. *)
Definition test_state : state :=
  {| translation_service := test_service;
     data_model_service := {| groq_api_key := "groq-key"; model_name := "llama3-8b-8192" |};
     log := [];
     net_calls := [] |}.

(** A later state of the same process: five requests served, a log line
    and an outbound call already recorded. *)
Definition later_state : state :=
  add_call (GroqCreate "groq-key" (PyList []) "llama3-8b-8192")
    (add_log (INFO, "earlier request") (set_request_id 5 test_state)).

Definition with_query (v : pyval) : Main.request :=
  {| Main.get_json := Ok (PyDict [("query", v)]) |}.

(** The body of a translation that went well. *)
Definition translation_body (v : pyval) : pyval :=
  PyDict [("data", PyDict [("translations", PyList [PyDict [("translatedText", v)]])])].

Definition ok_with (v : pyval) : response :=
  {| status_code := 200; json := inr (translation_body v) |}.

Definition forbidden : response :=
  {| status_code := 403; json := inr (PyDict [("error", PyDict [("code", PyInt 403)])]) |}.

Definition without_translations : response :=
  {| status_code := 200; json := inr (PyDict [("data", PyDict [])]) |}.

(** A world whose translation API answers every call with [r]. *)
Definition answering (r : response) : world :=
  {| now := fun _ => "20240101120000";
     requests_post := fun _ _ _ => HttpResponse r;
     chat_completions_create := fun _ _ _ => ChatCompletion [PyStr "Hi there"] |}.

(** A world in which the translation API answers [Hello] to the greeting
    and echoes everything else, and the model answers [Hi there]. *)
Definition greeting_world : world :=
  {| now := fun _ => "20240101120000";
     requests_post := fun _ p _ =>
       match q p with
       | PyStr "Asalaa maalekum" => HttpResponse (ok_with (PyStr "Hello"))
       | other => HttpResponse (ok_with other)
       end;
     chat_completions_create := fun _ _ _ => ChatCompletion [PyStr "Hi there"] |}.

(** The same world at a later time. *)
Definition greeting_world_later : world :=
  {| now := fun _ => "20240102080000";
     requests_post := requests_post greeting_world;
     chat_completions_create := chat_completions_create greeting_world |}.

(** A world whose model API is unreachable. *)
Definition model_down : world :=
  {| now := fun _ => "20240101120000";
     requests_post := fun _ p _ => HttpResponse (ok_with (q p));
     chat_completions_create := fun _ _ _ =>
       GroqRaises (OtherError "APIConnectionError" "Connection error.") |}.

(** A world whose translation API cannot be reached in time. *)
Definition timing_out : world :=
  {| now := fun _ => "20240101120000";
     requests_post := fun _ _ _ => HttpRaises (Timeout "Read timed out. (read timeout=10)");
     chat_completions_create := fun _ _ _ => ChatCompletion [PyStr "Hi there"] |}.

(** A world in which the translation towards [wo] is refused. *)
Definition back_refused : world :=
  {| now := fun _ => "20240101120000";
     requests_post := fun _ p _ =>
       if source p =? "wo" then HttpResponse (ok_with (PyStr "Hello"))
       else HttpResponse forbidden;
     chat_completions_create := fun _ _ _ => ChatCompletion [PyStr "Hi there"] |}.

Definition unavailable : response :=
  {| status_code := 503; json := inl "Expecting value: line 1 column 1 (char 0)" |}.

Definition bad_request : response :=
  {| status_code := 400;
     json := inr (PyDict [("error", PyDict [("message", PyStr "Bad language pair")])]) |}.

Definition not_json : response :=
  {| status_code := 200; json := inl "Expecting value: line 1 column 1 (char 0)" |}.

(* ===================================================================== *)
(** ** Tactics *)

(** Unfolding of the monad's combinators and of the state projections,
    leaving strings and table lookups alone. *)
Ltac run :=
  cbv beta iota zeta
      delta [bind ret raise lift try_except logger_info logger_error record_call
             Translator.self DataModel.self Translator.get_request_id fst snd
             result_of state_after].

Ltac proj :=
  cbn [translation_service data_model_service log net_calls
       api_key base_url supported_languages request_id
       add_log add_call set_request_id].

(** The run-time checked operations, on arguments whose class is known. *)
Ltac dyn :=
  cbn [negb orb andb isinstance_dict isinstance_list isinstance_str field
       py_in py_getitem py_getitem0 py_get py_slice_to py_len py_strip preview].

(** Case analysis on an innermost scrutinee of the goal. *)
Ltac split_match :=
  match goal with
  | |- context [match ?x with _ => _ end] =>
      lazymatch x with
      | context [match _ with _ => _ end] => fail
      | _ => destruct x eqn:?
      end
  end.

(* ===================================================================== *)
(** ** The model at work *)

Example services_are_constructed :
  Translator.init test_env = Ok test_service
  /\ DataModel.init test_env = Ok (data_model_service test_state)
  /\ Translator.init (fun _ => None)
     = Raise (ValueError "Google Translate API key not found in environment variables").
Proof. repeat split. Qed.

Example strip_examples :
  strip "  Na nga def  " = "Na nga def" /\ strip " " = "" /\ all_space " " = true.
Proof. repeat split. Qed.

Example repr_examples :
  py_str (PyList [PyStr "a"; PyInt (-5); PyDict [("k", PyNone)]]) = "['a', -5, {'k': None}]"
  /\ exn_str (KeyError (PyStr "xx")) = "'xx'".
Proof. repeat split. Qed.

Example log_of_a_translation :
  log (state_after (Translator.translate greeting_world (PyStr " Asalaa maalekum") "wo" "en")
         test_state)
  = [(INFO, "[20240101120000-1] Starting translation request");
     (INFO, "[20240101120000-1] From Wolof to English");
     (INFO, "[20240101120000-1] Input text:  Asalaa maalekum");
     (INFO, "[20240101120000-1] Sending request to translation API");
     (INFO, "[20240101120000-1] Received response with status code: 200");
     (INFO, "[20240101120000-1] Successfully translated text");
     (INFO, "[20240101120000-1] Translation result: Hello")].
Proof. reflexivity. Qed.

Example bad_request_message :
  result_of (Translator.translate
               (answering {| status_code := 400;
                             json := inr (PyDict [("error",
                                            PyDict [("message", PyStr "Bad language pair")])]) |})
               (PyStr "Na nga def") "wo" "en") test_state
  = Raise (TranslationError
             "Translation failed: Translation request invalid: Bad language pair").
Proof. reflexivity. Qed.

Example missing_translations_message :
  result_of (Translator.translate (answering without_translations) (PyStr "Na nga def")
               "wo" "en") test_state
  = Raise (TranslationError
             "Translation failed: Missing 'translations' in translation response").
Proof. reflexivity. Qed.

Example empty_query_is_a_client_error :
  result_of (Main.process_query (Main.app_services greeting_world) (with_query (PyStr "")))
    test_state
  = Ok (Main.jsonify [("error", PyStr "No query provided")] 400).
Proof. reflexivity. Qed.

(* ===================================================================== *)
(** ** Running the monad *)

Lemma run_bind {A B} (m : M A) (f : A -> M B) st :
  bind m f st =
  match result_of m st with
  | Ok a => f a (state_after m st)
  | Raise e => (Raise e, state_after m st)
  end.
Proof.
  unfold bind, result_of, state_after.
  destruct (m st) as [[a | e] st']; reflexivity.
Qed.

Lemma run_try_except {A} (m : M A) (h : exn -> M A) st :
  try_except m h st =
  match result_of m st with
  | Ok a => (Ok a, state_after m st)
  | Raise e => h e (state_after m st)
  end.
Proof.
  unfold try_except, result_of, state_after.
  destruct (m st) as [[a | e] st']; reflexivity.
Qed.

Lemma result_try_except {A} (m : M A) (h : exn -> M A) st :
  result_of (try_except m h) st =
  match result_of m st with
  | Ok a => Ok a
  | Raise e => result_of (h e) (state_after m st)
  end.
Proof.
  unfold result_of at 1. rewrite run_try_except.
  destruct (result_of m st); reflexivity.
Qed.

(** *** Outbound calls of the combinators *)

Section Quiet.
Context {A B : Type}.

Lemma quiet_ret (a : A) : quiet (ret a).
Proof. intro st; reflexivity. Qed.

Lemma quiet_raise (e : exn) : quiet (@raise A e).
Proof. intro st; reflexivity. Qed.

Lemma quiet_lift (r : result A) : quiet (lift r).
Proof. intro st; reflexivity. Qed.

Lemma quiet_bind (m : M A) (f : A -> M B) :
  quiet m -> (forall a, quiet (f a)) -> quiet (bind m f).
Proof.
  intros Hm Hf st. unfold state_after. rewrite run_bind.
  destruct (result_of m st) as [a | e]; cbn [snd].
  - rewrite <- (Hm st). apply Hf.
  - apply Hm.
Qed.

Lemma quiet_try_except (m : M A) (h : exn -> M A) :
  quiet m -> (forall e, quiet (h e)) -> quiet (try_except m h).
Proof.
  intros Hm Hh st. unfold state_after. rewrite run_try_except.
  destruct (result_of m st) as [a | e]; cbn [snd].
  - apply Hm.
  - rewrite <- (Hm st). apply Hh.
Qed.

Lemma quiet_appends (m : M A) : quiet m -> appends m.
Proof. intros Hm st. exists []. rewrite app_nil_r. apply Hm. Qed.

Lemma appends_bind (m : M A) (f : A -> M B) :
  appends m -> (forall a, appends (f a)) -> appends (bind m f).
Proof.
  intros Hm Hf st. unfold state_after. rewrite run_bind.
  destruct (Hm st) as [l1 H1].
  destruct (result_of m st) as [a | e]; cbn [snd].
  - destruct (Hf a (state_after m st)) as [l2 H2].
    exists (l1 ++ l2)%list. unfold state_after in *. rewrite H2, H1. now rewrite app_assoc.
  - eauto.
Qed.

Lemma appends_try_except (m : M A) (h : exn -> M A) :
  appends m -> (forall e, appends (h e)) -> appends (try_except m h).
Proof.
  intros Hm Hh st. unfold state_after. rewrite run_try_except.
  destruct (Hm st) as [l1 H1].
  destruct (result_of m st) as [a | e]; cbn [snd].
  - eauto.
  - destruct (Hh e (state_after m st)) as [l2 H2].
    exists (l1 ++ l2)%list. unfold state_after in *. rewrite H2, H1. now rewrite app_assoc.
Qed.

End Quiet.

Lemma quiet_logger_info msg : quiet (logger_info msg).
Proof. intro st; reflexivity. Qed.

Lemma quiet_logger_error msg : quiet (logger_error msg).
Proof. intro st; reflexivity. Qed.

Lemma quiet_self : quiet Translator.self.
Proof. intro st; reflexivity. Qed.

Lemma quiet_dm_self : quiet DataModel.self.
Proof. intro st; reflexivity. Qed.

Lemma quiet_get_request_id w : quiet (Translator.get_request_id w).
Proof. intro st; reflexivity. Qed.

Lemma appends_record_call c : appends (record_call c).
Proof. intro st. exists [c]. reflexivity. Qed.

Create HintDb quiet.
#[local] Hint Resolve quiet_ret quiet_raise quiet_lift quiet_logger_info
  quiet_logger_error quiet_self quiet_dm_self quiet_get_request_id : quiet.

(** One step through the syntax of a computation. *)
Ltac quiet_step :=
  match goal with
  | |- quiet (bind _ _) => apply quiet_bind; [| intro]
  | |- quiet (try_except _ _) => apply quiet_try_except; [| intro]
  | |- quiet (if ?c then _ else _) => destruct c
  | |- quiet (match ?x with _ => _ end) => destruct x
  | |- appends (bind _ _) => apply appends_bind; [| intro]
  | |- appends (try_except _ _) => apply appends_try_except; [| intro]
  | |- appends (if ?c then _ else _) => destruct c
  | |- appends (match ?x with _ => _ end) => destruct x
  | |- appends (record_call _) => apply appends_record_call
  | |- appends _ => first [solve [auto with quiet] | apply quiet_appends]
  | |- quiet _ => solve [auto with quiet]
  end.

(* ===================================================================== *)
(** ** The translation client, step by step *)

Lemma nonempty_truthy s : s <> "" -> py_truthy (PyStr s) = true.
Proof. destruct s; [congruence | reflexivity]. Qed.

Lemma preview_str s : exists shown, preview (PyStr s) = Ok shown.
Proof. unfold preview; cbn [py_slice_to py_len]; eauto. Qed.

Lemma truthy_str_inv text :
  py_truthy text && isinstance_str text = true ->
  exists s, text = PyStr s /\ s <> "".
Proof.
  destruct text; cbn; try (rewrite andb_false_r); try discriminate.
  intros H. exists s. split; [reflexivity |].
  intros ->. discriminate.
Qed.

Lemma supported_lookup this lang :
  Translator.supported this lang = true ->
  exists name, Translator.lang_lookup lang (supported_languages this) = Some name.
Proof.
  unfold Translator.supported.
  destruct (Translator.lang_lookup lang (supported_languages this)); [eauto | discriminate].
Qed.

Lemma supported_dec this lang :
  {Translator.supported this lang = true} + {Translator.supported this lang = false}.
Proof. destruct (Translator.supported this lang); auto. Qed.

Lemma lstrip_all_space s : all_space s = true -> lstrip s = "".
Proof.
  unfold all_space.
  induction s as [| c s IH]; cbn [list_ascii_of_string forallb lstrip]; [reflexivity |].
  intros H. apply andb_prop in H as [Hc Hs]. rewrite Hc. auto.
Qed.

Lemma strip_all_space s : all_space s = true -> strip s = "".
Proof. intros H. unfold strip. now rewrite (lstrip_all_space s H). Qed.

Lemma translate_rejects w text source_lang target_lang st :
  py_truthy text && isinstance_str text = false ->
  Translator.translate w text source_lang target_lang st
  = (Raise (ValueError "Text must be a non-empty string"),
     add_log (ERROR, "Invalid input: text must be a non-empty string") st).
Proof.
  intros H. unfold Translator.translate.
  replace (negb (py_truthy text) || negb (isinstance_str text)) with true.
  - reflexivity.
  - rewrite <- negb_andb, H. reflexivity.
Qed.

Lemma translate_unknown_source w s source_lang target_lang st :
  s <> "" ->
  Translator.supported (translation_service st) source_lang = false ->
  Translator.translate w (PyStr s) source_lang target_lang st
  = (Raise (KeyError (PyStr source_lang)),
     add_log (INFO, "[" ++ next_id w st ++ "] Starting translation request")
       (set_request_id (S (request_id (translation_service st))) st)).
Proof.
  intros Hs Hsrc. unfold Translator.supported in Hsrc.
  unfold Translator.translate.
  rewrite (nonempty_truthy s Hs). cbn [negb orb isinstance_str].
  unfold Translator.supported_languages_getitem. run. proj.
  destruct (Translator.lang_lookup source_lang _); [discriminate | reflexivity].
Qed.

Lemma translate_unknown_target w s source_lang target_lang st :
  s <> "" ->
  Translator.supported (translation_service st) source_lang = true ->
  Translator.supported (translation_service st) target_lang = false ->
  Translator.translate w (PyStr s) source_lang target_lang st
  = (Raise (KeyError (PyStr target_lang)),
     add_log (INFO, "[" ++ next_id w st ++ "] Starting translation request")
       (set_request_id (S (request_id (translation_service st))) st)).
Proof.
  intros Hs Hsrc Htgt. unfold Translator.supported in Hsrc, Htgt.
  unfold Translator.translate.
  rewrite (nonempty_truthy s Hs). cbn [negb orb isinstance_str].
  unfold Translator.supported_languages_getitem. run. proj.
  destruct (Translator.lang_lookup source_lang _); [| discriminate]. run. proj.
  destruct (Translator.lang_lookup target_lang _); [discriminate | reflexivity].
Qed.

Lemma translate_enters_try w s source_lang target_lang st sn tn shown :
  s <> "" ->
  Translator.lang_lookup source_lang (supported_languages (translation_service st)) = Some sn ->
  Translator.lang_lookup target_lang (supported_languages (translation_service st)) = Some tn ->
  preview (PyStr s) = Ok shown ->
  Translator.translate w (PyStr s) source_lang target_lang st
  = try_except
      (Translator.request_translation w (next_id w st) (PyStr s) source_lang target_lang)
      (Translator.translation_failed (next_id w st))
      (started w shown sn tn st).
Proof.
  intros Hs Hsrc Htgt Hshown.
  unfold Translator.translate.
  rewrite (nonempty_truthy s Hs).
  cbn [negb orb isinstance_str].
  unfold Translator.supported_languages_getitem.
  run. proj. rewrite Hsrc. run. proj. rewrite Htgt. run.
  rewrite Hshown. reflexivity.
Qed.

Lemma request_translation_run w rid s source_lang target_lang st :
  Translator.supported (translation_service st) source_lang = true ->
  Translator.supported (translation_service st) target_lang = true ->
  let p := Translator.make_params (translation_service st) (PyStr (strip s))
             source_lang target_lang in
  Translator.request_translation w rid (PyStr s) source_lang target_lang st
  = match requests_post w (base_url (translation_service st)) p 10 with
    | HttpRaises e => (Raise e, sent rid p st)
    | HttpResponse r => Translator.check_response rid r (received rid r (sent rid p st))
    end.
Proof.
  intros Hsrc Htgt p.
  unfold Translator.request_translation, Translator.validate_language_codes,
    Translator.post.
  run. rewrite Hsrc, Htgt. cbn [negb py_strip]. run. proj.
  fold p. destruct (requests_post w _ p 10); reflexivity.
Qed.

Lemma translation_failed_run rid e st :
  exists line,
    Translator.translation_failed rid e st
    = (Raise (TranslationError (failure_message e)), add_log (ERROR, line) st).
Proof.
  unfold Translator.translation_failed, failure_message.
  destruct (is_Timeout e); [| destruct (is_RequestException e)]; run; eauto.
Qed.

Lemma read_translation_ok_inv rid r st v :
  result_of (Translator.read_translation rid r) st = Ok v ->
  translated_text_of r = Some v /\ py_truthy v = true /\ sliceable v = true.
Proof.
  unfold Translator.read_translation, Translator.validate_translation_response,
    Translator.response_json, translated_text_of.
  destruct (json r) as [msg | body]; run; [discriminate |].
  destruct body as [| | | | | | d]; dyn; run; try discriminate.
  unfold translated_text. cbn [field].
  destruct (dict_lookup "data" d) as [data |] eqn:Hdata; dyn; run; [| discriminate].
  destruct data as [| | | | | | d0]; dyn; run; try discriminate;
    try (split_match; run; discriminate).
  destruct (dict_lookup "translations" d0) as [translations |] eqn:Htr; dyn; run;
    [| discriminate].
  destruct translations as [| | | | | l |]; dyn; run; try discriminate;
    try (destruct (py_truthy _); dyn; run; discriminate).
  destruct l as [| first l]; cbn [py_truthy]; dyn; run; [discriminate |].
  destruct first as [| | | | | | d1]; dyn; run; try discriminate;
    try (split_match; run; discriminate).
  destruct (dict_lookup "translatedText" d1) as [translation |] eqn:Htext; dyn; run;
    [| discriminate].
  destruct (py_truthy translation) eqn:Htruthy; dyn; run; [| discriminate].
  destruct translation; dyn; run; try discriminate;
    intros [= <-]; auto.
Qed.

Lemma read_translation_ok rid r st v :
  translated_text_of r = Some v -> py_truthy v = true -> sliceable v = true ->
  result_of (Translator.read_translation rid r) st = Ok v.
Proof.
  unfold translated_text_of, translated_text, Translator.read_translation,
    Translator.validate_translation_response, Translator.response_json.
  destruct (json r) as [msg | body]; [discriminate |].
  destruct body as [| | | | | | d]; cbn [field]; try discriminate.
  destruct (dict_lookup "data" d) as [data |] eqn:Hdata; [| discriminate].
  destruct data as [| | | | | | d0]; cbn [field]; try discriminate.
  destruct (dict_lookup "translations" d0) as [translations |] eqn:Htr; [| discriminate].
  destruct translations as [| | | | | [| first l] |]; try discriminate.
  destruct first as [| | | | | | d1]; cbn [field]; try discriminate.
  intros Htext Htruthy Hslice.
  run; dyn. rewrite Hdata. run; dyn. rewrite Htr. run; dyn.
  cbn [py_truthy]; dyn. run; dyn. rewrite Htext. run; dyn. rewrite Htruthy. run; dyn.
  destruct v; try discriminate; reflexivity.
Qed.

Lemma read_translation_empty rid r st v :
  translated_text_of r = Some v -> py_truthy v = false ->
  result_of (Translator.read_translation rid r) st
  = Raise (TranslationError "Empty translation received").
Proof.
  unfold translated_text_of, translated_text, Translator.read_translation,
    Translator.validate_translation_response, Translator.response_json.
  destruct (json r) as [msg | body]; [discriminate |].
  destruct body as [| | | | | | d]; cbn [field]; try discriminate.
  destruct (dict_lookup "data" d) as [data |] eqn:Hdata; [| discriminate].
  destruct data as [| | | | | | d0]; cbn [field]; try discriminate.
  destruct (dict_lookup "translations" d0) as [translations |] eqn:Htr; [| discriminate].
  destruct translations as [| | | | | [| first l] |]; try discriminate.
  destruct first as [| | | | | | d1]; cbn [field]; try discriminate.
  intros Htext Htruthy.
  run; dyn. rewrite Hdata. run; dyn. rewrite Htr. run; dyn.
  cbn [py_truthy]; dyn. run; dyn. rewrite Htext. run; dyn. rewrite Htruthy.
  reflexivity.
Qed.

Lemma check_response_200 rid r st :
  status_code r = 200%Z ->
  result_of (Translator.check_response rid r) st
  = match result_of (Translator.read_translation rid r) st with
    | Ok v => Ok v
    | Raise e => Raise (reparse e)
    end.
Proof.
  intros H200. unfold Translator.check_response. rewrite H200.
  cbn [Z.eqb Pos.eqb negb].
  rewrite result_try_except.
  destruct (result_of (Translator.read_translation rid r) st) as [v | e]; [reflexivity |].
  unfold reparse. destruct (is_JSONDecodeError e); reflexivity.
Qed.

Lemma check_response_ok_status rid r st v :
  result_of (Translator.check_response rid r) st = Ok v -> status_code r = 200%Z.
Proof.
  unfold Translator.check_response, Translator.response_json.
  destruct (status_code r =? 400)%Z eqn:H400.
  - destruct (json r) as [msg | body]; run; [discriminate |].
    destruct (py_get body "error" (PyDict [])) as [error_data |]; run; [| discriminate].
    destruct (py_get error_data "message" (PyStr "Invalid request")); run; discriminate.
  - destruct (status_code r =? 403)%Z eqn:H403; run; [discriminate |].
    destruct (status_code r =? 200)%Z eqn:H200; cbn [negb]; run; [| discriminate].
    intros _. now apply Z.eqb_eq.
Qed.

Lemma check_response_403 rid r st :
  status_code r = 403%Z ->
  result_of (Translator.check_response rid r) st
  = Raise (TranslationError "Authentication failed. Please check your API key.").
Proof.
  intros H403. unfold Translator.check_response. rewrite H403. reflexivity.
Qed.

(** *** Outbound calls of the translation client *)

Lemma quiet_validate_translation_response body :
  quiet (Translator.validate_translation_response body).
Proof. unfold Translator.validate_translation_response. repeat quiet_step. Qed.

Lemma quiet_read_translation rid r : quiet (Translator.read_translation rid r).
Proof.
  unfold Translator.read_translation, Translator.response_json.
  pose proof quiet_validate_translation_response.
  repeat quiet_step; auto.
Qed.

Lemma quiet_check_response rid r : quiet (Translator.check_response rid r).
Proof.
  unfold Translator.check_response, Translator.response_json.
  pose proof (quiet_read_translation rid r).
  repeat quiet_step; auto.
Qed.

Lemma quiet_translation_failed rid e : quiet (Translator.translation_failed rid e).
Proof. unfold Translator.translation_failed. repeat quiet_step. Qed.

Lemma appends_post w url p timeout : appends (Translator.post w url p timeout).
Proof. unfold Translator.post. repeat quiet_step. Qed.

Lemma appends_translate w text source_lang target_lang :
  appends (Translator.translate w text source_lang target_lang).
Proof.
  unfold Translator.translate, Translator.supported_languages_getitem,
    Translator.request_translation, Translator.validate_language_codes.
  pose proof quiet_check_response.
  pose proof quiet_translation_failed.
  pose proof appends_post.
  repeat quiet_step; auto.
Qed.

(** *** The result and the calls of [translate] *)

(** With a non-empty text and two supported codes the call reaches the
    remote service; what comes back decides the result. *)
Lemma translate_result w s source_lang target_lang st :
  s <> "" ->
  Translator.supported (translation_service st) source_lang = true ->
  Translator.supported (translation_service st) target_lang = true ->
  exists (rid : string) (st' : response -> state),
    result_of (Translator.translate w (PyStr s) source_lang target_lang) st
    = match requests_post w (base_url (translation_service st))
              (Translator.make_params (translation_service st) (PyStr (strip s))
                 source_lang target_lang) 10 with
      | HttpRaises e => Raise (TranslationError (failure_message e))
      | HttpResponse r =>
          match result_of (Translator.check_response rid r) (st' r) with
          | Ok v => Ok v
          | Raise e => Raise (TranslationError (failure_message e))
          end
      end.
Proof.
  intros Hs Hsrc Htgt.
  destruct (supported_lookup _ _ Hsrc) as [sn Hsn].
  destruct (supported_lookup _ _ Htgt) as [tn Htn].
  destruct (preview_str s) as [shown Hshown].
  exists (next_id w st).
  exists (fun r => received (next_id w st) r
                     (sent (next_id w st)
                        (Translator.make_params (translation_service st) (PyStr (strip s))
                           source_lang target_lang)
                        (started w shown sn tn st))).
  unfold result_of at 1.
  rewrite (translate_enters_try w s source_lang target_lang st sn tn shown) by assumption.
  rewrite run_try_except.
  unfold result_of at 1, state_after.
  rewrite request_translation_run by assumption.
  cbn [started add_log set_request_id translation_service base_url].
  change (Translator.make_params _ (PyStr (strip s)) source_lang target_lang)
    with (Translator.make_params (translation_service st) (PyStr (strip s))
            source_lang target_lang).
  destruct (requests_post w _ _ 10) as [e | r]; cbn [fst snd].
  - destruct (translation_failed_run (next_id w st) e
                (sent (next_id w st)
                   (Translator.make_params (translation_service st) (PyStr (strip s))
                      source_lang target_lang)
                   (started w shown sn tn st))) as [line Hline].
    cbn [started add_log set_request_id translation_service base_url] in Hline.
    etransitivity; [ apply (f_equal fst); exact Hline | reflexivity ].
  - unfold result_of.
    cbn [started add_log set_request_id translation_service base_url].
    destruct (Translator.check_response _ r _) as [[v | e] st2]; cbn [fst snd];
      [reflexivity |].
    destruct (translation_failed_run (next_id w st) e st2) as [line Hline].
    now rewrite Hline.
Qed.

(** ... and exactly one outbound call is made, with the stripped text. *)
Lemma translate_calls w s source_lang target_lang st :
  s <> "" ->
  Translator.supported (translation_service st) source_lang = true ->
  Translator.supported (translation_service st) target_lang = true ->
  net_calls (state_after (Translator.translate w (PyStr s) source_lang target_lang) st)
  = (net_calls st
     ++ [HttpPost (base_url (translation_service st))
           (Translator.make_params (translation_service st) (PyStr (strip s))
              source_lang target_lang) 10])%list.
Proof.
  intros Hs Hsrc Htgt.
  destruct (supported_lookup _ _ Hsrc) as [sn Hsn].
  destruct (supported_lookup _ _ Htgt) as [tn Htn].
  destruct (preview_str s) as [shown Hshown].
  unfold state_after at 1.
  rewrite (translate_enters_try w s source_lang target_lang st sn tn shown) by assumption.
  rewrite run_try_except.
  set (rid := next_id w st).
  set (st0 := started w shown sn tn st).
  assert (Hbody :
    net_calls (state_after
      (Translator.request_translation w rid (PyStr s) source_lang target_lang) st0)
    = (net_calls st
       ++ [HttpPost (base_url (translation_service st))
             (Translator.make_params (translation_service st) (PyStr (strip s))
                source_lang target_lang) 10])%list).
  { unfold state_after. rewrite request_translation_run by assumption.
    change (base_url (translation_service st0)) with (base_url (translation_service st)).
    change (Translator.make_params (translation_service st0))
      with (Translator.make_params (translation_service st)).
    destruct (requests_post w _ _ 10) as [e | r]; cbn [snd].
    - reflexivity.
    - exact (quiet_check_response rid r _). }
  destruct (result_of _ st0) as [v | e]; cbn [snd].
  - exact Hbody.
  - rewrite <- Hbody. exact (quiet_translation_failed rid e _).
Qed.

(** Every failure past the two local checks is a [TranslationError]. *)
Lemma translate_typed w s source_lang target_lang st :
  s <> "" ->
  Translator.supported (translation_service st) source_lang = true ->
  Translator.supported (translation_service st) target_lang = true ->
  (exists v, result_of (Translator.translate w (PyStr s) source_lang target_lang) st = Ok v)
  \/ (exists msg,
        result_of (Translator.translate w (PyStr s) source_lang target_lang) st
        = Raise (TranslationError msg)).
Proof.
  intros Hs Hsrc Htgt.
  destruct (translate_result w s source_lang target_lang st Hs Hsrc Htgt)
    as (rid & st' & ->).
  destruct (requests_post w _ _ 10) as [e | r]; [eauto |].
  destruct (result_of (Translator.check_response rid r) (st' r)); eauto.
Qed.

(** When [translate] returns, the remote service answered 200 with a
    well-shaped body, and the value returned is its [translatedText]. *)
Lemma translate_ok_inv w text source_lang target_lang st v :
  result_of (Translator.translate w text source_lang target_lang) st = Ok v ->
  exists s r,
    text = PyStr s /\ s <> ""
    /\ Translator.supported (translation_service st) source_lang = true
    /\ Translator.supported (translation_service st) target_lang = true
    /\ requests_post w (base_url (translation_service st))
         (Translator.make_params (translation_service st) (PyStr (strip s))
            source_lang target_lang) 10 = HttpResponse r
    /\ status_code r = 200%Z
    /\ translated_text_of r = Some v
    /\ py_truthy v = true
    /\ sliceable v = true.
Proof.
  intros Hok.
  destruct (py_truthy text && isinstance_str text) eqn:Htext.
  2:{ unfold result_of in Hok. rewrite translate_rejects in Hok by assumption.
      discriminate. }
  destruct (truthy_str_inv text Htext) as (s & -> & Hs).
  destruct (supported_dec (translation_service st) source_lang) as [Hsrc | Hsrc].
  2:{ unfold result_of in Hok. rewrite translate_unknown_source in Hok by assumption.
      discriminate. }
  destruct (supported_dec (translation_service st) target_lang) as [Htgt | Htgt].
  2:{ unfold result_of in Hok. rewrite translate_unknown_target in Hok by assumption.
      discriminate. }
  destruct (translate_result w s source_lang target_lang st Hs Hsrc Htgt)
    as (rid & st' & Hres).
  rewrite Hres in Hok.
  destruct (requests_post w _ _ 10) as [e | r] eqn:Hpost; [discriminate |].
  destruct (result_of (Translator.check_response rid r) (st' r)) as [v' | e] eqn:Hcheck;
    [| discriminate].
  injection Hok as ->.
  pose proof (check_response_ok_status _ _ _ _ Hcheck) as H200.
  rewrite (check_response_200 _ _ _ H200) in Hcheck.
  destruct (result_of (Translator.read_translation rid r) (st' r)) as [v' | e] eqn:Hread;
    [| discriminate].
  injection Hcheck as ->.
  destruct (read_translation_ok_inv _ _ _ _ Hread) as (Htt & Htruthy & Hslice).
  exists s, r. repeat split; assumption.
Qed.

(** Conversely, such an answer is returned as it is. *)
Lemma translate_ok w s source_lang target_lang st r v :
  s <> "" ->
  Translator.supported (translation_service st) source_lang = true ->
  Translator.supported (translation_service st) target_lang = true ->
  requests_post w (base_url (translation_service st))
    (Translator.make_params (translation_service st) (PyStr (strip s))
       source_lang target_lang) 10 = HttpResponse r ->
  status_code r = 200%Z ->
  translated_text_of r = Some v -> py_truthy v = true -> sliceable v = true ->
  result_of (Translator.translate w (PyStr s) source_lang target_lang) st = Ok v.
Proof.
  intros Hs Hsrc Htgt Hpost H200 Htt Htruthy Hslice.
  destruct (translate_result w s source_lang target_lang st Hs Hsrc Htgt)
    as (rid & st' & ->).
  rewrite Hpost, (check_response_200 _ _ _ H200).
  now rewrite (read_translation_ok _ _ _ _ Htt Htruthy Hslice).
Qed.

Lemma read_translation_indep rid1 rid2 r st1 st2 :
  result_of (Translator.read_translation rid1 r) st1
  = result_of (Translator.read_translation rid2 r) st2.
Proof.
  unfold Translator.read_translation, Translator.validate_translation_response,
    Translator.response_json.
  run.
  repeat (split_match; run; try reflexivity).
Qed.

Lemma check_response_indep rid1 rid2 r st1 st2 :
  result_of (Translator.check_response rid1 r) st1
  = result_of (Translator.check_response rid2 r) st2.
Proof.
  unfold Translator.check_response.
  destruct (status_code r =? 400)%Z.
  { unfold Translator.response_json. run.
    repeat (split_match; run; try reflexivity). }
  destruct (status_code r =? 403)%Z; [reflexivity |].
  destruct (status_code r =? 200)%Z; cbn [negb]; [| reflexivity].
  rewrite !result_try_except.
  rewrite (read_translation_indep rid1 rid2 r st1 st2).
  destruct (result_of (Translator.read_translation rid2 r) st2) as [v | e];
    [reflexivity |].
  destruct (is_JSONDecodeError e); reflexivity.
Qed.

(* ===================================================================== *)
(** ** The model client and the handler, step by step *)

(** [query_model] turns every failure into the same bare exception. *)
Lemma query_model_failure w prompt st e :
  result_of (DataModel.query_model w prompt) st = Raise e ->
  e = Exception "Failed to query the model.".
Proof.
  unfold DataModel.query_model. rewrite result_try_except.
  destruct (result_of _ st); [discriminate |].
  run. now intros [= <-].
Qed.

Lemma process_query_result w s st :
  s <> "" ->
  result_of (DataModel.process_query w (PyStr s)) st
  = match result_of (DataModel.query_model w (PyStr (strip s))) st with
    | Ok response => Ok response
    | Raise e => Raise (Exception ("Query processing failed: " ++ exn_str e))
    end.
Proof.
  intros Hs. unfold DataModel.process_query.
  rewrite (nonempty_truthy s Hs). cbn [negb orb isinstance_str py_strip].
  rewrite result_try_except.
  unfold result_of at 1, state_after at 1. run.
  fold (result_of (DataModel.query_model w (PyStr (strip s))) st).
  destruct (DataModel.query_model w (PyStr (strip s)) st) as [[response | e] st'];
    reflexivity.
Qed.

Lemma appends_query_model w prompt : appends (DataModel.query_model w prompt).
Proof. unfold DataModel.query_model, DataModel.create. repeat quiet_step. Qed.

Lemma appends_process_query w query : appends (DataModel.process_query w query).
Proof.
  unfold DataModel.process_query.
  pose proof appends_query_model.
  repeat quiet_step; auto.
Qed.

Lemma pipeline_enters svc d v st :
  dict_lookup "query" d = Some v ->
  py_truthy v = true ->
  Main.pipeline svc {| Main.get_json := Ok (PyDict d) |} st
  = bind (Main.translation_service_translate svc v "wo" "en") (after_translation svc v)
      (add_log (INFO, "Translating query from Wolof to French: " ++ py_str v) st).
Proof.
  intros Hquery Htruthy. unfold Main.pipeline.
  cbn [Main.get_json]. run. cbn [py_get]. rewrite Hquery.
  run. rewrite Htruthy. reflexivity.
Qed.

Lemma process_query_unfold svc req st :
  Main.process_query svc req st = try_except (Main.pipeline svc req) server_error st.
Proof. reflexivity. Qed.

Lemma appends_after_translation w wolof_query french_query :
  appends (after_translation (Main.app_services w) wolof_query french_query).
Proof.
  unfold after_translation.
  cbn [Main.app_services Main.translation_service_translate
       Main.data_model_service_process_query].
  pose proof appends_translate.
  pose proof appends_process_query.
  repeat quiet_step; auto.
Qed.

Lemma after_translation_status svc wolof_query french_query st reply :
  result_of (after_translation svc wolof_query french_query) st = Ok reply ->
  Main.status reply = 200%Z.
Proof.
  unfold after_translation. run.
  repeat (split_match; run); try discriminate.
  now intros [= <-].
Qed.

(* ===================================================================== *)
(** ** The claims *)

(** C1. Let the translation client return [Hello] for the greeting from
    [wo] to [en] and [Hi there] for [Hi there] from [en] to [wo], and the
    model client return [Hi there] for [Hello].  Then the handler answers
    the query [Asalaa maalekum] with status 200 and the four fields
    [original_query], [french_query], [french_response], [wolof_response],
    and the state it leaves is the one reached by running the translation,
    then the model query on its result, then the translation back, each
    after the log line that announces it. *)
Theorem C1_pipeline_returns_the_four_stages :
  forall (svc : Main.services) (st : state),
    let translate := Main.translation_service_translate svc in
    let process_query := Main.data_model_service_process_query svc in
    let st0 := add_log (INFO, "Translating query from Wolof to French: Asalaa maalekum") st in
    let st1 := state_after (translate (PyStr "Asalaa maalekum") "wo" "en") st0 in
    let st1' := add_log (INFO, "Processing French query: Hello") st1 in
    let st2 := state_after (process_query (PyStr "Hello")) st1' in
    let st2' := add_log (INFO, "Translating response to Wolof: Hi there") st2 in
    let st3 := state_after (translate (PyStr "Hi there") "en" "wo") st2' in
    result_of (translate (PyStr "Asalaa maalekum") "wo" "en") st0 = Ok (PyStr "Hello") ->
    result_of (process_query (PyStr "Hello")) st1' = Ok (PyStr "Hi there") ->
    result_of (translate (PyStr "Hi there") "en" "wo") st2' = Ok (PyStr "Hi there") ->
    Main.process_query svc (with_query (PyStr "Asalaa maalekum")) st
    = (Ok {| Main.body :=
               PyDict [("original_query", PyStr "Asalaa maalekum");
                       ("french_query", PyStr "Hello");
                       ("french_response", PyStr "Hi there");
                       ("wolof_response", PyStr "Hi there")];
             Main.status := 200 |},
       st3).
Proof.
  intros svc st translate process_query st0 st1 st1' st2 st2' st3 Hfirst Hmodel Hback.
  assert (E1 : translate (PyStr "Asalaa maalekum") "wo" "en" st0 = (Ok (PyStr "Hello"), st1)).
  { rewrite (surjective_pairing (translate _ "wo" "en" st0)). f_equal. exact Hfirst. }
  assert (E2 : process_query (PyStr "Hello") st1' = (Ok (PyStr "Hi there"), st2)).
  { rewrite (surjective_pairing (process_query _ st1')). f_equal. exact Hmodel. }
  assert (E3 : translate (PyStr "Hi there") "en" "wo" st2' = (Ok (PyStr "Hi there"), st3)).
  { rewrite (surjective_pairing (translate _ "en" "wo" st2')). f_equal. exact Hback. }
  unfold Main.process_query, try_except, with_query.
  rewrite (pipeline_enters svc [("query", PyStr "Asalaa maalekum")]
             (PyStr "Asalaa maalekum") st eq_refl eq_refl).
  unfold after_translation, bind, logger_info, ret.
  cbn [py_str append]. fold translate process_query st0. rewrite E1.
  cbn [py_str append]. fold st1'. rewrite E2.
  cbn [py_str append]. fold st2'. rewrite E3.
  reflexivity.
Qed.

Lemma C1_witness :
  Main.process_query (Main.app_services greeting_world)
    (with_query (PyStr "Asalaa maalekum")) test_state
  = (Ok {| Main.body :=
             PyDict [("original_query", PyStr "Asalaa maalekum");
                     ("french_query", PyStr "Hello");
                     ("french_response", PyStr "Hi there");
                     ("wolof_response", PyStr "Hi there")];
           Main.status := 200 |},
     state_after (Translator.translate greeting_world (PyStr "Hi there") "en" "wo")
       (add_log (INFO, "Translating response to Wolof: Hi there")
          (state_after (DataModel.process_query greeting_world (PyStr "Hello"))
             (add_log (INFO, "Processing French query: Hello")
                (state_after
                   (Translator.translate greeting_world (PyStr "Asalaa maalekum") "wo" "en")
                   (add_log (INFO, "Translating query from Wolof to French: Asalaa maalekum")
                      test_state)))))).
Proof.
  apply (C1_pipeline_returns_the_four_stages (Main.app_services greeting_world) test_state).
  - reflexivity.
  - reflexivity.
  - reflexivity.
Defined.

(** With the real clients over the stubbed remote services, the outbound
    calls of that run are the translation, the model query and the
    translation back, in this order. *)
Example greeting_calls :
  net_calls (state_after (Main.process_query (Main.app_services greeting_world)
                            (with_query (PyStr "Asalaa maalekum"))) test_state)
  = [HttpPost "https://translation.googleapis.com/language/translate/v2"
       {| q := PyStr "Asalaa maalekum"; source := "wo"; target := "en"; key := "test-key" |} 10;
     GroqCreate "groq-key"
       (PyList [PyDict [("role", PyStr "user"); ("content", PyStr "Hello")]])
       "llama3-8b-8192";
     HttpPost "https://translation.googleapis.com/language/translate/v2"
       {| q := PyStr "Hi there"; source := "en"; target := "wo"; key := "test-key" |} 10].
Proof. reflexivity. Qed.

(** C2. With a non-empty text and the source code [xx], which the service
    does not support, [translate] makes no network call, but what it
    raises is the [KeyError] of the log line that indexes
    [supported_languages], not an error of the validation kind:
    [validate_language_codes] is never reached. *)
Theorem C2_unsupported_source_raises_KeyError :
  forall w s st,
    s <> "" ->
    Translator.supported (translation_service st) "xx" = false ->
    result_of (Translator.translate w (PyStr s) "xx" "en") st
    = Raise (KeyError (PyStr "xx"))
    /\ is_ValueError (KeyError (PyStr "xx")) = false
    /\ is_TranslationError (KeyError (PyStr "xx")) = false
    /\ net_calls (state_after (Translator.translate w (PyStr s) "xx" "en") st)
       = net_calls st.
Proof.
  intros w s st Hs Hxx.
  unfold result_of, state_after.
  rewrite translate_unknown_source by assumption.
  repeat split.
Qed.

Lemma C2_witness :
  result_of (Translator.translate greeting_world (PyStr "Hello") "xx" "en") test_state
  = Raise (KeyError (PyStr "xx"))
  /\ is_ValueError (KeyError (PyStr "xx")) = false
  /\ is_TranslationError (KeyError (PyStr "xx")) = false
  /\ net_calls (state_after (Translator.translate greeting_world (PyStr "Hello") "xx" "en")
                  test_state)
     = net_calls test_state.
Proof.
  apply (C2_unsupported_source_raises_KeyError greeting_world "Hello" test_state).
  - discriminate.
  - reflexivity.
Defined.

(** C3, as stated, fails: the exception that leaves [process_query] when
    the model call fails carries the prefix and the message of the inner
    failure, and the query text is in neither. *)
Lemma C3_counterexample :
  result_of (DataModel.query_model model_down (PyStr "Hello")) test_state
  = Raise (Exception "Failed to query the model.")
  /\ result_of (DataModel.process_query model_down (PyStr "Hello")) test_state
     = Raise (Exception "Query processing failed: Failed to query the model.")
  /\ contains "Hello" "Query processing failed: Failed to query the model." = false.
Proof. repeat split. Qed.

(** C3, amended.  For a non-empty string query, when [query_model]
    raises, [process_query] raises a bare [Exception] whose message is
    [Query processing failed: ] followed by the message of that failure,
    which is always [Failed to query the model.]: the added context is the
    fixed prefix, the same for every query. *)
Theorem C3_model_failure_is_rewrapped_with_a_fixed_prefix :
  forall w s st e,
    s <> "" ->
    result_of (DataModel.query_model w (PyStr (strip s))) st = Raise e ->
    result_of (DataModel.process_query w (PyStr s)) st
    = Raise (Exception ("Query processing failed: " ++ exn_str e))
    /\ exn_str e = "Failed to query the model.".
Proof.
  intros w s st e Hs Hfail.
  rewrite (process_query_result w s st Hs), Hfail.
  rewrite (query_model_failure _ _ _ _ Hfail).
  split; reflexivity.
Qed.

Lemma C3_witness :
  result_of (DataModel.process_query model_down (PyStr "Hello")) test_state
  = Raise (Exception ("Query processing failed: "
                      ++ exn_str (Exception "Failed to query the model.")))
  /\ exn_str (Exception "Failed to query the model.") = "Failed to query the model.".
Proof.
  apply (C3_model_failure_is_rewrapped_with_a_fixed_prefix model_down "Hello" test_state
           (Exception "Failed to query the model.")).
  - discriminate.
  - reflexivity.
Defined.

(** C4. [translate("", source, target)] raises the [ValueError] of the
    caller-contract check, which is not a [TranslationError], whatever the
    two language codes are, and the trace of outbound calls is left as it
    was: no network call is made. *)
Theorem C4_empty_text_is_rejected_before_any_call :
  forall w source_lang target_lang st,
    result_of (Translator.translate w (PyStr "") source_lang target_lang) st
    = Raise (ValueError "Text must be a non-empty string")
    /\ is_TranslationError (ValueError "Text must be a non-empty string") = false
    /\ net_calls (state_after (Translator.translate w (PyStr "") source_lang target_lang) st)
       = net_calls st.
Proof.
  intros w source_lang target_lang st.
  unfold result_of, state_after.
  rewrite translate_rejects by reflexivity.
  repeat split.
Qed.

(** What [translate] can return: the [translatedText] of an answer of
    status 200, and only when that value is a non-empty string or a
    non-empty list; a number, a boolean or an object there makes the log
    line that slices it fail, and the call ends in a [TranslationError]. *)
Lemma translate_returns_a_string_or_a_list w text source_lang target_lang st v :
  result_of (Translator.translate w text source_lang target_lang) st = Ok v ->
  (exists s r,
      text = PyStr s
      /\ requests_post w (base_url (translation_service st))
           (Translator.make_params (translation_service st) (PyStr (strip s))
              source_lang target_lang) 10 = HttpResponse r
      /\ status_code r = 200%Z
      /\ translated_text_of r = Some v)
  /\ ((exists t, v = PyStr t /\ t <> "") \/ (exists x l, v = PyList (x :: l))).
Proof.
  intros Hok.
  destruct (translate_ok_inv _ _ _ _ _ _ Hok)
    as (s & r & -> & _ & _ & _ & Hpost & H200 & Htt & Htruthy & Hslice).
  split; [exists s, r; auto |].
  destruct v as [| | | | t | [| x l] |]; try discriminate.
  - left. exists t. split; [reflexivity |]. intros ->. discriminate.
  - right. eauto.
Qed.

(** An answer of status 200 whose [translatedText] is empty is a failure. *)
Lemma translate_rejects_an_empty_translation w s source_lang target_lang st r v :
  s <> "" ->
  Translator.supported (translation_service st) source_lang = true ->
  Translator.supported (translation_service st) target_lang = true ->
  requests_post w (base_url (translation_service st))
    (Translator.make_params (translation_service st) (PyStr (strip s))
       source_lang target_lang) 10 = HttpResponse r ->
  status_code r = 200%Z ->
  translated_text_of r = Some v ->
  py_truthy v = false ->
  result_of (Translator.translate w (PyStr s) source_lang target_lang) st
  = Raise (TranslationError "Translation failed: Empty translation received").
Proof.
  intros Hs Hsrc Htgt Hpost H200 Htt Hempty.
  destruct (translate_result w s source_lang target_lang st Hs Hsrc Htgt)
    as (rid & st' & ->).
  rewrite Hpost, (check_response_200 _ _ _ H200).
  now rewrite (read_translation_empty _ _ _ _ Htt Hempty).
Qed.

(** C5. The code breaks the claim: [translate] is declared to return a
    string, and it tests the text and the query of the model client with
    [isinstance], but of [translatedText] it only tests emptiness.  With a
    non-empty text and two supported codes, an answer of status 200 whose
    [translatedText] is a non-empty JSON array passes the validation, the
    emptiness test and the slicing and [len] of the log line, and
    [translate] returns that list, which is no string. *)
Theorem C5_list_translatedText_is_returned :
  forall w s source_lang target_lang st r x l,
    s <> "" ->
    Translator.supported (translation_service st) source_lang = true ->
    Translator.supported (translation_service st) target_lang = true ->
    requests_post w (base_url (translation_service st))
      (Translator.make_params (translation_service st) (PyStr (strip s))
         source_lang target_lang) 10 = HttpResponse r ->
    status_code r = 200%Z ->
    translated_text_of r = Some (PyList (x :: l)) ->
    result_of (Translator.translate w (PyStr s) source_lang target_lang) st
    = Ok (PyList (x :: l))
    /\ isinstance_str (PyList (x :: l)) = false.
Proof.
  intros w s source_lang target_lang st r x l Hs Hsrc Htgt Hpost H200 Htt.
  split; [| reflexivity].
  apply (translate_ok w s source_lang target_lang st r (PyList (x :: l)));
    try assumption; reflexivity.
Qed.

Lemma C5_witness :
  result_of (Translator.translate (answering (ok_with (PyList [PyStr "Hello"])))
               (PyStr "Na nga def") "wo" "en") test_state
  = Ok (PyList [PyStr "Hello"])
  /\ isinstance_str (PyList [PyStr "Hello"]) = false.
Proof.
  apply (C5_list_translatedText_is_returned (answering (ok_with (PyList [PyStr "Hello"])))
           "Na nga def" "wo" "en" test_state (ok_with (PyList [PyStr "Hello"]))
           (PyStr "Hello") []).
  - discriminate.
  - reflexivity.
  - reflexivity.
  - reflexivity.
  - reflexivity.
  - reflexivity.
Defined.

(** C6. With a non-empty text and two supported codes, a remote answer
    of status 200 whose body does not hold
    [data.translations[0].translatedText] (the body is no JSON, or no
    object, [data] or [translations] is missing, [translations] is empty or
    no list, or its first entry has no [translatedText]) makes [translate]
    raise a [TranslationError], never an exception of another class. *)
Theorem C6_malformed_body_raises_TranslationError :
  forall w s source_lang target_lang st r,
    s <> "" ->
    Translator.supported (translation_service st) source_lang = true ->
    Translator.supported (translation_service st) target_lang = true ->
    requests_post w (base_url (translation_service st))
      (Translator.make_params (translation_service st) (PyStr (strip s))
         source_lang target_lang) 10 = HttpResponse r ->
    status_code r = 200%Z ->
    translated_text_of r = None ->
    exists msg,
      result_of (Translator.translate w (PyStr s) source_lang target_lang) st
      = Raise (TranslationError msg).
Proof.
  intros w s source_lang target_lang st r Hs Hsrc Htgt Hpost H200 Hnone.
  destruct (translate_typed w s source_lang target_lang st Hs Hsrc Htgt)
    as [[v Hok] | Hfail]; [| exact Hfail].
  destruct (translate_ok_inv _ _ _ _ _ _ Hok)
    as (s' & r' & [= <-] & _ & _ & _ & Hpost' & _ & Htt & _).
  rewrite Hpost in Hpost'. injection Hpost' as <-.
  rewrite Hnone in Htt. discriminate.
Qed.

Lemma C6_witness :
  exists msg,
    result_of (Translator.translate (answering without_translations) (PyStr "Na nga def")
                 "wo" "en") test_state
    = Raise (TranslationError msg).
Proof.
  apply (C6_malformed_body_raises_TranslationError
           (answering without_translations) "Na nga def" "wo" "en" test_state
           without_translations).
  - discriminate.
  - reflexivity.
  - reflexivity.
  - reflexivity.
  - reflexivity.
  - reflexivity.
Defined.

(** C7. With a non-empty text and two supported codes, a remote answer
    of status 403 makes [translate] raise a [TranslationError] whose
    message, after the re-wrapping by the last [except] clause, still
    names the authentication failure and the API key. *)
Theorem C7_status_403_reports_authentication_failure :
  forall w s source_lang target_lang st r,
    s <> "" ->
    Translator.supported (translation_service st) source_lang = true ->
    Translator.supported (translation_service st) target_lang = true ->
    requests_post w (base_url (translation_service st))
      (Translator.make_params (translation_service st) (PyStr (strip s))
         source_lang target_lang) 10 = HttpResponse r ->
    status_code r = 403%Z ->
    exists msg,
      result_of (Translator.translate w (PyStr s) source_lang target_lang) st
      = Raise (TranslationError msg)
      /\ msg = "Translation failed: Authentication failed. Please check your API key."
      /\ contains "Authentication failed" msg = true
      /\ contains "API key" msg = true.
Proof.
  intros w s source_lang target_lang st r Hs Hsrc Htgt Hpost H403.
  destruct (translate_result w s source_lang target_lang st Hs Hsrc Htgt)
    as (rid & st' & Hres).
  rewrite Hpost, (check_response_403 _ _ _ H403) in Hres.
  eexists. split; [exact Hres |].
  repeat split.
Qed.

Lemma C7_witness :
  exists msg,
    result_of (Translator.translate (answering forbidden) (PyStr "Na nga def") "wo" "en")
      test_state
    = Raise (TranslationError msg)
    /\ msg = "Translation failed: Authentication failed. Please check your API key."
    /\ contains "Authentication failed" msg = true
    /\ contains "API key" msg = true.
Proof.
  apply (C7_status_403_reports_authentication_failure
           (answering forbidden) "Na nga def" "wo" "en" test_state forbidden).
  - discriminate.
  - reflexivity.
  - reflexivity.
  - reflexivity.
  - reflexivity.
Defined.

(** C8. The result of [translate] (the value returned, or the class and
    message of the exception raised) is the same in any two runs with the
    same arguments and the same remote answers, whatever the request
    counter, the clock, the log and the trace of calls are in each; and
    [get_request_id] adds one to the counter and prints the new value
    after the timestamp. *)
Theorem C8_request_counter_does_not_affect_the_result :
  (forall w1 w2 st1 st2 text source_lang target_lang,
      same_configuration (translation_service st1) (translation_service st2) ->
      (forall url p timeout,
          requests_post w1 url p timeout = requests_post w2 url p timeout) ->
      result_of (Translator.translate w1 text source_lang target_lang) st1
      = result_of (Translator.translate w2 text source_lang target_lang) st2)
  /\ (forall w st,
        request_id (translation_service (state_after (Translator.get_request_id w) st))
        = S (request_id (translation_service st))
        /\ result_of (Translator.get_request_id w) st
           = Ok (now w (S (request_id (translation_service st)))
                 ++ "-" ++ str_of_nat (S (request_id (translation_service st))))).
Proof.
  split; [| intros w st; split; reflexivity].
  intros w1 w2 st1 st2 text source_lang target_lang (Hkey & Hurl & Hlangs) Hworld.
  destruct (py_truthy text && isinstance_str text) eqn:Htext.
  2:{ unfold result_of. now rewrite !translate_rejects by assumption. }
  destruct (truthy_str_inv text Htext) as (s & -> & Hs).
  assert (Hsup : forall lang,
             Translator.supported (translation_service st1) lang
             = Translator.supported (translation_service st2) lang).
  { intros lang. unfold Translator.supported. now rewrite Hlangs. }
  destruct (supported_dec (translation_service st1) source_lang) as [Hsrc | Hsrc].
  2:{ unfold result_of. rewrite !translate_unknown_source; auto.
      now rewrite <- Hsup. }
  destruct (supported_dec (translation_service st1) target_lang) as [Htgt | Htgt].
  2:{ unfold result_of. rewrite !translate_unknown_target; auto;
        now rewrite <- Hsup. }
  destruct (translate_result w1 s source_lang target_lang st1 Hs Hsrc Htgt)
    as (rid1 & st1' & ->).
  rewrite Hsup in Hsrc, Htgt.
  destruct (translate_result w2 s source_lang target_lang st2 Hs Hsrc Htgt)
    as (rid2 & st2' & ->).
  unfold Translator.make_params. rewrite Hworld, Hurl, Hkey.
  destruct (requests_post w2 _ _ 10) as [e | r]; [reflexivity |].
  now rewrite (check_response_indep rid1 rid2 r (st1' r) (st2' r)).
Qed.

Lemma C8_witness :
  result_of (Translator.translate greeting_world (PyStr "Asalaa maalekum") "wo" "en")
    test_state
  = result_of (Translator.translate greeting_world_later (PyStr "Asalaa maalekum") "wo" "en")
      later_state.
Proof.
  apply (proj1 C8_request_counter_does_not_affect_the_result
           greeting_world greeting_world_later test_state later_state).
  - repeat split.
  - reflexivity.
Defined.

(** C9. A non-empty text made of whitespace only is not rejected by the
    non-empty check of [translate]: with two supported codes the text is
    stripped to the empty string and the one outbound call is made with an
    empty [q], so that no [ValueError] is raised.  The handler accepts
    such a query as well: it does not answer 400, and the first outbound
    call of the pipeline is that POST with an empty [q]. *)
Theorem C9_whitespace_only_text_reaches_the_remote_service :
  (forall w s source_lang target_lang st,
      s <> "" -> all_space s = true ->
      Translator.supported (translation_service st) source_lang = true ->
      Translator.supported (translation_service st) target_lang = true ->
      py_truthy (PyStr s) = true
      /\ strip s = ""
      /\ (forall msg,
             result_of (Translator.translate w (PyStr s) source_lang target_lang) st
             <> Raise (ValueError msg))
      /\ net_calls (state_after (Translator.translate w (PyStr s) source_lang target_lang) st)
         = (net_calls st
            ++ [HttpPost (base_url (translation_service st))
                  (Translator.make_params (translation_service st) (PyStr "")
                     source_lang target_lang) 10])%list)
  /\ (forall w d s st,
        dict_lookup "query" d = Some (PyStr s) ->
        s <> "" -> all_space s = true ->
        Translator.supported (translation_service st) "wo" = true ->
        Translator.supported (translation_service st) "en" = true ->
        exists reply later,
          result_of (Main.process_query (Main.app_services w)
                       {| Main.get_json := Ok (PyDict d) |}) st = Ok reply
          /\ Main.status reply <> 400%Z
          /\ net_calls (state_after (Main.process_query (Main.app_services w)
                                       {| Main.get_json := Ok (PyDict d) |}) st)
             = (net_calls st
                ++ HttpPost (base_url (translation_service st))
                     (Translator.make_params (translation_service st) (PyStr "")
                        "wo" "en") 10
                   :: later)%list).
Proof.
  split.
  - intros w s source_lang target_lang st Hs Hspace Hsrc Htgt.
    split; [now apply nonempty_truthy |].
    split; [now apply strip_all_space |].
    split.
    + intros msg Hval.
      destruct (translate_typed w s source_lang target_lang st Hs Hsrc Htgt)
        as [[v Hok] | [msg' Hfail]]; congruence.
    + rewrite translate_calls by assumption.
      now rewrite (strip_all_space s Hspace).
  - intros w d s st Hquery Hs Hspace Hwo Hen.
    pose proof (nonempty_truthy s Hs) as Htruthy.
    unfold result_of, state_after, Main.process_query, try_except.
    rewrite (pipeline_enters _ d (PyStr s) st Hquery Htruthy).
    unfold bind. cbn [Main.app_services Main.translation_service_translate].
    set (st1 := add_log _ st).
    pose proof (translate_calls w s "wo" "en" st1 Hs Hwo Hen) as Hcalls.
    rewrite (strip_all_space s Hspace) in Hcalls.
    change (net_calls st1) with (net_calls st) in Hcalls.
    change (translation_service st1) with (translation_service st) in Hcalls.
    unfold state_after in Hcalls.
    destruct (Translator.translate w (PyStr s) "wo" "en" st1)
      as [[french_query | e] st2]; cbn [snd] in Hcalls.
    + destruct (appends_after_translation w (PyStr s) french_query st2)
        as [later Hlater].
      rewrite Hcalls, <- app_assoc in Hlater. cbn [app] in Hlater.
      pose proof (after_translation_status (Main.app_services w) (PyStr s)
                    french_query st2) as Hstatus.
      unfold state_after in Hlater. unfold result_of in Hstatus.
      change (Main.translation_service_translate (Main.app_services w))
        with (Translator.translate w) in Hlater, Hstatus.
      destruct (after_translation _ _ french_query st2) as [[reply | e] st3];
        cbn [fst snd] in *.
      * exists reply, later. repeat split; [| assumption].
        rewrite (Hstatus reply eq_refl). discriminate.
      * eexists; exists later. repeat split; [discriminate | assumption].
    + cbn [fst snd]. eexists; exists []. repeat split; [discriminate | assumption].
Qed.

Lemma C9_witness :
  (py_truthy (PyStr " ") = true
   /\ strip " " = ""
   /\ (forall msg,
          result_of (Translator.translate greeting_world (PyStr " ") "wo" "en") test_state
          <> Raise (ValueError msg))
   /\ net_calls (state_after (Translator.translate greeting_world (PyStr " ") "wo" "en")
                   test_state)
      = (net_calls test_state
         ++ [HttpPost (base_url (translation_service test_state))
               (Translator.make_params (translation_service test_state) (PyStr "")
                  "wo" "en") 10])%list)
  /\ exists reply later,
       result_of (Main.process_query (Main.app_services greeting_world) (with_query (PyStr " ")))
         test_state = Ok reply
       /\ Main.status reply <> 400%Z
       /\ net_calls (state_after (Main.process_query (Main.app_services greeting_world)
                                    (with_query (PyStr " "))) test_state)
          = (net_calls test_state
             ++ HttpPost (base_url (translation_service test_state))
                  (Translator.make_params (translation_service test_state) (PyStr "")
                     "wo" "en") 10
                :: later)%list.
Proof.
  split.
  - apply (proj1 C9_whitespace_only_text_reaches_the_remote_service
             greeting_world " " "wo" "en" test_state).
    + discriminate.
    + reflexivity.
    + reflexivity.
    + reflexivity.
  - apply (proj2 C9_whitespace_only_text_reaches_the_remote_service
             greeting_world [("query", PyStr " ")] " " test_state).
    + reflexivity.
    + discriminate.
    + reflexivity.
    + reflexivity.
    + reflexivity.
Defined.

(** C10. When the [query] field holds a truthy value that is no string,
    the handler does not answer 400: the value passes the falsiness test,
    [translate] rejects it with its [ValueError] before any outbound call,
    and the [except] clause answers 500 with the message of that error. *)
Theorem C10_truthy_non_string_query_yields_500 :
  forall w d v st,
    dict_lookup "query" d = Some v ->
    py_truthy v = true ->
    isinstance_str v = false ->
    result_of (Main.process_query (Main.app_services w)
                 {| Main.get_json := Ok (PyDict d) |}) st
    = Ok (Main.jsonify [("error", PyStr "Text must be a non-empty string")] 500)
    /\ (forall st', result_of (Translator.translate w v "wo" "en") st'
                    = Raise (ValueError "Text must be a non-empty string"))
    /\ net_calls (state_after (Main.process_query (Main.app_services w)
                                 {| Main.get_json := Ok (PyDict d) |}) st)
       = net_calls st.
Proof.
  intros w d v st Hquery Htruthy Hstr.
  assert (Hrej : py_truthy v && isinstance_str v = false)
    by (rewrite Hstr; apply andb_false_r).
  unfold result_of, state_after.
  rewrite process_query_unfold, run_try_except.
  unfold result_of, state_after.
  rewrite (pipeline_enters _ d v st Hquery Htruthy), run_bind.
  unfold result_of, state_after. cbn [Main.app_services Main.translation_service_translate].
  rewrite !translate_rejects by assumption.
  repeat split.
  intros st'. now rewrite translate_rejects by assumption.
Qed.

Lemma C10_witness :
  result_of (Main.process_query (Main.app_services greeting_world)
               {| Main.get_json := Ok (PyDict [("query", PyList [PyInt 1; PyInt 2])]) |})
    test_state
  = Ok (Main.jsonify [("error", PyStr "Text must be a non-empty string")] 500)
  /\ (forall st', result_of (Translator.translate greeting_world
                               (PyList [PyInt 1; PyInt 2]) "wo" "en") st'
                  = Raise (ValueError "Text must be a non-empty string"))
  /\ net_calls (state_after (Main.process_query (Main.app_services greeting_world)
                   {| Main.get_json := Ok (PyDict [("query", PyList [PyInt 1; PyInt 2])]) |})
                  test_state)
     = net_calls test_state.
Proof.
  apply (C10_truthy_non_string_query_yields_500 greeting_world
           [("query", PyList [PyInt 1; PyInt 2])] (PyList [PyInt 1; PyInt 2]) test_state).
  - reflexivity.
  - reflexivity.
  - reflexivity.
Defined.


(* ===================================================================== *)
(** ** Further properties

    *** Frames of the combinators *)

Section Keeps.
Context {X A B : Type} (part : state -> X).

Lemma keeps_ret (a : A) : keeps part (ret a).
Proof. intro st; reflexivity. Qed.

Lemma keeps_raise (e : exn) : keeps part (@raise A e).
Proof. intro st; reflexivity. Qed.

Lemma keeps_lift (r : result A) : keeps part (lift r).
Proof. intro st; reflexivity. Qed.

Lemma keeps_bind (m : M A) (f : A -> M B) :
  keeps part m -> (forall a, keeps part (f a)) -> keeps part (bind m f).
Proof.
  intros Hm Hf st. unfold state_after. rewrite run_bind.
  destruct (result_of m st) as [a | e]; cbn [snd].
  - rewrite <- (Hm st). apply Hf.
  - apply Hm.
Qed.

Lemma keeps_try_except (m : M A) (h : exn -> M A) :
  keeps part m -> (forall e, keeps part (h e)) -> keeps part (try_except m h).
Proof.
  intros Hm Hh st. unfold state_after. rewrite run_try_except.
  destruct (result_of m st) as [a | e]; cbn [snd].
  - apply Hm.
  - rewrite <- (Hm st). apply Hh.
Qed.

End Keeps.

(** One step through the syntax of a computation that only logs and
    calls out. *)
Ltac keeps_step :=
  match goal with
  | |- keeps _ _ => solve [auto 1]
  | |- keeps _ (bind _ _) => apply keeps_bind; [| intro]
  | |- keeps _ (try_except _ _) => apply keeps_try_except; [| intro]
  | |- keeps _ (if ?c then _ else _) => destruct c
  | |- keeps _ (match ?x with _ => _ end) => destruct x
  | |- keeps _ _ => solve [intro; reflexivity | auto]
  end.

Lemma keeps_services_check_response rid r :
  keeps translation_service (Translator.check_response rid r)
  /\ keeps data_model_service (Translator.check_response rid r).
Proof.
  unfold Translator.check_response, Translator.read_translation,
    Translator.validate_translation_response, Translator.response_json.
  split; repeat keeps_step.
Qed.

Lemma keeps_services_translate_tail w rid text source_lang target_lang :
  keeps translation_service
    (try_except (Translator.request_translation w rid text source_lang target_lang)
       (Translator.translation_failed rid))
  /\ keeps data_model_service
       (try_except (Translator.request_translation w rid text source_lang target_lang)
          (Translator.translation_failed rid)).
Proof.
  unfold Translator.request_translation, Translator.validate_language_codes,
    Translator.post, Translator.translation_failed, Translator.self.
  pose proof (fun rid r => proj1 (keeps_services_check_response rid r)).
  pose proof (fun rid r => proj2 (keeps_services_check_response rid r)).
  split; repeat keeps_step.
Qed.

(** *** The request counter and the configuration *)

Lemma translate_services_after :
  forall w text source_lang target_lang st,
    translation_service (state_after (Translator.translate w text source_lang target_lang) st)
    = (if py_truthy text && isinstance_str text
       then counted (translation_service st)
       else translation_service st)
    /\ data_model_service
         (state_after (Translator.translate w text source_lang target_lang) st)
       = data_model_service st.
Proof.
  intros w text source_lang target_lang st.
  destruct (py_truthy text && isinstance_str text) eqn:Htext.
  - destruct (truthy_str_inv text Htext) as (s & -> & Hs).
    unfold state_after, Translator.translate.
    rewrite (nonempty_truthy s Hs). cbn [negb orb isinstance_str].
    rewrite run_bind. unfold result_of, state_after.
    cbn [Translator.get_request_id fst snd].
    split.
    + lazymatch goal with
      | |- translation_service (snd (?m ?st0)) = _ =>
          assert (K : keeps translation_service m)
      end.
      { unfold Translator.supported_languages_getitem, Translator.self.
        pose proof (fun rid text => proj1 (keeps_services_translate_tail w rid text
                                             source_lang target_lang)).
        repeat keeps_step. }
      unfold keeps, state_after in K. rewrite K. reflexivity.
    + lazymatch goal with
      | |- data_model_service (snd (?m ?st0)) = _ =>
          assert (K : keeps data_model_service m)
      end.
      { unfold Translator.supported_languages_getitem, Translator.self.
        pose proof (fun rid text => proj2 (keeps_services_translate_tail w rid text
                                             source_lang target_lang)).
        repeat keeps_step. }
      unfold keeps, state_after in K. rewrite K. reflexivity.
  - unfold state_after. rewrite translate_rejects by assumption. split; reflexivity.
Qed.

(** [translate] draws one request identifier exactly when it accepts the
    text, whatever happens afterwards (an unsupported code, a failure of
    the remote service, a translation), and none when it rejects the text;
    it never touches the key, the URL, the table of languages or the model
    client. *)
Theorem translate_counts_the_accepted_calls :
  forall w text source_lang target_lang st,
    translation_service (state_after (Translator.translate w text source_lang target_lang) st)
    = (if py_truthy text && isinstance_str text
       then counted (translation_service st)
       else translation_service st)
    /\ data_model_service
         (state_after (Translator.translate w text source_lang target_lang) st)
       = data_model_service st.
Proof. exact translate_services_after. Qed.

(** *** The exceptions that leave [translate] *)

(** Only three classes of exceptions leave [translate]: the [ValueError]
    of a rejected text, the [KeyError] of a code missing from the table of
    languages (the source code first), and [TranslationError] for every
    failure once the text and both codes are accepted.  No exception of
    [requests], no [TypeError] and no [AttributeError] reaches the caller. *)
Theorem translate_raises_three_classes :
  forall w text source_lang target_lang st e,
    result_of (Translator.translate w text source_lang target_lang) st = Raise e ->
    (py_truthy text && isinstance_str text = false
     /\ e = ValueError "Text must be a non-empty string")
    \/ (py_truthy text && isinstance_str text = true
        /\ Translator.supported (translation_service st) source_lang = false
        /\ e = KeyError (PyStr source_lang))
    \/ (py_truthy text && isinstance_str text = true
        /\ Translator.supported (translation_service st) source_lang = true
        /\ Translator.supported (translation_service st) target_lang = false
        /\ e = KeyError (PyStr target_lang))
    \/ (py_truthy text && isinstance_str text = true
        /\ Translator.supported (translation_service st) source_lang = true
        /\ Translator.supported (translation_service st) target_lang = true
        /\ exists msg, e = TranslationError msg).
Proof.
  intros w text source_lang target_lang st e Hraise.
  destruct (py_truthy text && isinstance_str text) eqn:Htext.
  2:{ left. unfold result_of in Hraise.
      rewrite translate_rejects in Hraise by assumption.
      injection Hraise as <-. auto. }
  right.
  destruct (truthy_str_inv text Htext) as (s & -> & Hs).
  destruct (supported_dec (translation_service st) source_lang) as [Hsrc | Hsrc].
  2:{ left. unfold result_of in Hraise.
      rewrite translate_unknown_source in Hraise by assumption.
      injection Hraise as <-. auto. }
  right.
  destruct (supported_dec (translation_service st) target_lang) as [Htgt | Htgt].
  2:{ left. unfold result_of in Hraise.
      rewrite translate_unknown_target in Hraise by assumption.
      injection Hraise as <-. auto. }
  right.
  destruct (translate_typed w s source_lang target_lang st Hs Hsrc Htgt)
    as [[v Hok] | [msg Hfail]]; [congruence |].
  repeat split; try assumption.
  exists msg. congruence.
Qed.

Lemma translate_raises_three_classes_witness :
  (py_truthy (PyStr "Na nga def") && isinstance_str (PyStr "Na nga def") = false
   /\ KeyError (PyStr "fr") = ValueError "Text must be a non-empty string")
  \/ (py_truthy (PyStr "Na nga def") && isinstance_str (PyStr "Na nga def") = true
      /\ Translator.supported (translation_service test_state) "wo" = false
      /\ KeyError (PyStr "fr") = KeyError (PyStr "wo"))
  \/ (py_truthy (PyStr "Na nga def") && isinstance_str (PyStr "Na nga def") = true
      /\ Translator.supported (translation_service test_state) "wo" = true
      /\ Translator.supported (translation_service test_state) "fr" = false
      /\ KeyError (PyStr "fr") = KeyError (PyStr "fr"))
  \/ (py_truthy (PyStr "Na nga def") && isinstance_str (PyStr "Na nga def") = true
      /\ Translator.supported (translation_service test_state) "wo" = true
      /\ Translator.supported (translation_service test_state) "fr" = true
      /\ exists msg, KeyError (PyStr "fr") = TranslationError msg).
Proof.
  apply (translate_raises_three_classes greeting_world (PyStr "Na nga def") "wo" "fr"
           test_state (KeyError (PyStr "fr"))).
  reflexivity.
Defined.

(** *** The validation of the response *)

Lemma validate_translation_response_ok_inv body st :
  result_of (Translator.validate_translation_response body) st = Ok tt ->
  exists b d first rest,
    body = PyDict b
    /\ dict_lookup "data" b = Some (PyDict d)
    /\ dict_lookup "translations" d = Some (PyList (first :: rest))
    /\ py_in "translatedText" first = Ok true.
Proof.
  unfold Translator.validate_translation_response.
  destruct body as [| | | | | | b]; dyn; run; try discriminate.
  destruct (dict_lookup "data" b) as [data |] eqn:Hdata; dyn; run; [| discriminate].
  destruct data as [| | | | | | d]; dyn; run; try discriminate;
    try (split_match; run; discriminate).
  destruct (dict_lookup "translations" d) as [translations |] eqn:Htr; dyn; run;
    [| discriminate].
  destruct translations as [| | | | | [| first rest] |]; cbn [py_truthy]; dyn; run;
    try discriminate; try (destruct (negb _); run; discriminate).
  destruct (py_in "translatedText" first) as [[|] | e'] eqn:Hin; run; cbn [negb];
    try discriminate.
  intros _. exists b, d, first, rest. auto.
Qed.

Lemma validate_translation_response_ok b d first rest st :
  dict_lookup "data" b = Some (PyDict d) ->
  dict_lookup "translations" d = Some (PyList (first :: rest)) ->
  py_in "translatedText" first = Ok true ->
  result_of (Translator.validate_translation_response (PyDict b)) st = Ok tt.
Proof.
  intros Hdata Htr Hin.
  unfold Translator.validate_translation_response. dyn. run. dyn.
  rewrite Hdata. run. dyn. rewrite ?Hdata. rewrite Htr. run. dyn.
  rewrite ?Hdata, ?Htr. run.
  cbn [py_truthy]. dyn. run. rewrite Hin. reflexivity.
Qed.

Lemma py_in_raises k v e : py_in k v = Raise e -> is_TypeError e = true.
Proof. destruct v; cbn; try discriminate; now intros [= <-]. Qed.

Lemma validate_translation_response_raises body st e :
  result_of (Translator.validate_translation_response body) st = Raise e ->
  is_TranslationError e || is_TypeError e = true.
Proof.
  unfold Translator.validate_translation_response.
  destruct body as [| | | | | | b]; dyn; run; try (intros [= <-]; reflexivity).
  destruct (dict_lookup "data" b) as [data |] eqn:Hdata; dyn; run;
    [| intros [= <-]; reflexivity].
  destruct data as [| | | | | | d]; dyn; run;
    try (intros [= <-]; reflexivity);
    try (split_match; run; intros [= <-]; reflexivity).
  destruct (dict_lookup "translations" d) as [translations |] eqn:Htr; dyn; run;
    [| intros [= <-]; reflexivity].
  destruct translations as [| | | | | [| first rest] |]; cbn [py_truthy]; dyn; run;
    try (intros [= <-]; reflexivity);
    try (destruct (negb _); run; intros [= <-]; reflexivity).
  destruct (py_in "translatedText" first) as [[|] | e'] eqn:Hin; run; cbn [negb];
    try discriminate; intros [= <-]; [reflexivity |].
  rewrite (py_in_raises _ _ _ Hin). apply orb_true_r.
Qed.

Lemma validate_translation_response_pure body :
  keeps (fun st => st) (Translator.validate_translation_response body).
Proof. unfold Translator.validate_translation_response. repeat keeps_step. Qed.

(** [validate_translation_response] accepts a body exactly when it is an
    object whose [data] is an object whose [translations] is a non-empty
    list, and [translatedText] is "in" the first entry, be it a key of an
    object, a substring of a string or a member of a list.  What it raises
    otherwise is a [TranslationError] or, for a [data] or an entry that
    cannot be searched or indexed, a [TypeError]; it leaves the state as
    it was: it logs nothing and makes no call. *)
Theorem validate_translation_response_accepts :
  forall body st,
    (result_of (Translator.validate_translation_response body) st = Ok tt <->
     exists b d first rest,
       body = PyDict b
       /\ dict_lookup "data" b = Some (PyDict d)
       /\ dict_lookup "translations" d = Some (PyList (first :: rest))
       /\ py_in "translatedText" first = Ok true)
    /\ (forall e,
          result_of (Translator.validate_translation_response body) st = Raise e ->
          is_TranslationError e || is_TypeError e = true)
    /\ state_after (Translator.validate_translation_response body) st = st.
Proof.
  intros body st. split; [split |].
  - apply validate_translation_response_ok_inv.
  - intros (b & d & first & rest & -> & Hdata & Htr & Hin).
    now apply (validate_translation_response_ok b d first rest).
  - split.
    + intros e. apply validate_translation_response_raises.
    + apply (validate_translation_response_pure body st).
Qed.

Lemma validate_translation_response_accepts_witness :
  result_of (Translator.validate_translation_response
               (translation_body (PyStr "Hello"))) test_state = Ok tt
  /\ is_TranslationError (TypeError "argument of type 'int' is not iterable")
     || is_TypeError (TypeError "argument of type 'int' is not iterable") = true.
Proof.
  split.
  - apply (proj1 (validate_translation_response_accepts
                    (translation_body (PyStr "Hello")) test_state)).
    exists [("data",
             PyDict [("translations", PyList [PyDict [("translatedText", PyStr "Hello")]])])],
      [("translations", PyList [PyDict [("translatedText", PyStr "Hello")]])],
      (PyDict [("translatedText", PyStr "Hello")]), [].
    repeat split.
  - apply (proj1 (proj2 (validate_translation_response_accepts
                           (PyDict [("data", PyInt 5)]) test_state))).
    reflexivity.
Defined.

Lemma validate_translation_response_defect body msg st :
  defect body msg ->
  result_of (Translator.validate_translation_response body) st
  = Raise (TranslationError msg).
Proof.
  intros Hdefect. unfold Translator.validate_translation_response.
  destruct Hdefect as [body Hdict | b Hdata | b d Hdata Htr
                      | b d translations Hdata Htr Hbad | b d entry rest Hdata Htr Htext].
  - rewrite Hdict. reflexivity.
  - dyn. run. dyn. rewrite Hdata. reflexivity.
  - dyn. run. dyn. rewrite Hdata. run. dyn. rewrite Htr. reflexivity.
  - dyn. run. dyn. rewrite Hdata. run. dyn. rewrite ?Hdata. rewrite Htr. run. dyn.
    rewrite ?Hdata, ?Htr. run.
    replace (negb (py_truthy translations) || negb (isinstance_list translations))
      with true by (rewrite <- negb_andb, Hbad; reflexivity).
    reflexivity.
  - dyn. run. dyn. rewrite Hdata. run. dyn. rewrite ?Hdata. rewrite Htr. run. dyn.
    rewrite ?Hdata, ?Htr. run. cbn [py_truthy]. dyn. run. dyn. rewrite Htext.
    reflexivity.
Qed.

Lemma read_translation_stops_at_validation rid r body e st :
  json r = inr body ->
  result_of (Translator.validate_translation_response body) st = Raise e ->
  result_of (Translator.read_translation rid r) st = Raise e.
Proof.
  intros Hjson Hval.
  unfold Translator.read_translation, Translator.response_json.
  rewrite Hjson. revert Hval. run.
  destruct (Translator.validate_translation_response body st) as [[[] | e'] st'];
    cbv beta iota; [discriminate | now intros [= <-]].
Qed.

(** With the text and both codes accepted and an answer of status 200,
    a failure of the inner [try] leaves [translate] as a
    [TranslationError] with the message of the last [except] clause. *)
Lemma translate_200_failure w s source_lang target_lang st r e :
  s <> "" ->
  Translator.supported (translation_service st) source_lang = true ->
  Translator.supported (translation_service st) target_lang = true ->
  requests_post w (base_url (translation_service st))
    (Translator.make_params (translation_service st) (PyStr (strip s))
       source_lang target_lang) 10 = HttpResponse r ->
  status_code r = 200%Z ->
  result_of (Translator.read_translation "" r) st = Raise e ->
  result_of (Translator.translate w (PyStr s) source_lang target_lang) st
  = Raise (TranslationError (failure_message (reparse e))).
Proof.
  intros Hs Hsrc Htgt Hpost H200 Hread.
  destruct (translate_result w s source_lang target_lang st Hs Hsrc Htgt)
    as (rid & st' & ->).
  rewrite Hpost, (check_response_200 _ _ _ H200).
  now rewrite (read_translation_indep rid "" r (st' r) st), Hread.
Qed.

(** *** The message of each failure *)

(** With the text and both codes accepted, an answer of status 200 whose
    body has one of the five defects the validation names makes
    [translate] raise a [TranslationError] whose message is that of the
    defect after the prefix [Translation failed: ]. *)
Theorem translate_names_the_defect_of_the_body :
  forall w s source_lang target_lang st r body msg,
    s <> "" ->
    Translator.supported (translation_service st) source_lang = true ->
    Translator.supported (translation_service st) target_lang = true ->
    requests_post w (base_url (translation_service st))
      (Translator.make_params (translation_service st) (PyStr (strip s))
         source_lang target_lang) 10 = HttpResponse r ->
    status_code r = 200%Z ->
    json r = inr body ->
    defect body msg ->
    result_of (Translator.translate w (PyStr s) source_lang target_lang) st
    = Raise (TranslationError ("Translation failed: " ++ msg)).
Proof.
  intros w s source_lang target_lang st r body msg Hs Hsrc Htgt Hpost H200 Hjson Hdefect.
  apply (translate_200_failure w s source_lang target_lang st r (TranslationError msg));
    try assumption.
  apply (read_translation_stops_at_validation "" r body); [assumption |].
  now apply validate_translation_response_defect.
Qed.

Lemma translate_names_the_defect_of_the_body_witness :
  result_of (Translator.translate (answering without_translations) (PyStr "Na nga def")
               "wo" "en") test_state
  = Raise (TranslationError
             ("Translation failed: " ++ "Missing 'translations' in translation response")).
Proof.
  apply (translate_names_the_defect_of_the_body
           (answering without_translations) "Na nga def" "wo" "en" test_state
           without_translations (PyDict [("data", PyDict [])])).
  - discriminate.
  - reflexivity.
  - reflexivity.
  - reflexivity.
  - reflexivity.
  - reflexivity.
  - apply (no_translations [("data", PyDict [])] []); reflexivity.
Defined.

(** With the text and both codes accepted, a failure of the transport is
    reported as a [TranslationError]: a timeout with a fixed message, any
    other exception of [requests] with its own message after
    [Translation service error: ], and any other exception after
    [Translation failed: ].  The call is made once: nothing is retried. *)
Theorem translate_reports_transport_failures :
  forall w s source_lang target_lang st e,
    s <> "" ->
    Translator.supported (translation_service st) source_lang = true ->
    Translator.supported (translation_service st) target_lang = true ->
    requests_post w (base_url (translation_service st))
      (Translator.make_params (translation_service st) (PyStr (strip s))
         source_lang target_lang) 10 = HttpRaises e ->
    result_of (Translator.translate w (PyStr s) source_lang target_lang) st
    = Raise (TranslationError
               (if is_Timeout e then "Translation service timeout. Please try again."
                else if is_RequestException e then "Translation service error: " ++ exn_str e
                else "Translation failed: " ++ exn_str e))
    /\ net_calls (state_after (Translator.translate w (PyStr s) source_lang target_lang) st)
       = (net_calls st
          ++ [HttpPost (base_url (translation_service st))
                (Translator.make_params (translation_service st) (PyStr (strip s))
                   source_lang target_lang) 10])%list.
Proof.
  intros w s source_lang target_lang st e Hs Hsrc Htgt Hpost.
  split; [| now apply translate_calls].
  destruct (translate_result w s source_lang target_lang st Hs Hsrc Htgt)
    as (rid & st' & ->).
  rewrite Hpost. reflexivity.
Qed.

Lemma translate_reports_transport_failures_witness :
  result_of (Translator.translate timing_out (PyStr "Na nga def") "wo" "en") test_state
  = Raise (TranslationError "Translation service timeout. Please try again.")
  /\ net_calls (state_after (Translator.translate timing_out (PyStr "Na nga def") "wo" "en")
                  test_state)
     = (net_calls test_state
        ++ [HttpPost (base_url (translation_service test_state))
              (Translator.make_params (translation_service test_state)
                 (PyStr (strip "Na nga def")) "wo" "en") 10])%list.
Proof.
  apply (translate_reports_transport_failures timing_out "Na nga def" "wo" "en" test_state
           (Timeout "Read timed out. (read timeout=10)")).
  - discriminate.
  - reflexivity.
  - reflexivity.
  - reflexivity.
Defined.

(** With the text and both codes accepted, an answer whose status is
    none of 200, 400 and 403 makes [translate] raise a [TranslationError]
    that tells the status; the message carries both prefixes, that of the
    status branch and that of the last [except] clause, which wraps it
    again. *)
Theorem translate_reports_the_status :
  forall w s source_lang target_lang st r,
    s <> "" ->
    Translator.supported (translation_service st) source_lang = true ->
    Translator.supported (translation_service st) target_lang = true ->
    requests_post w (base_url (translation_service st))
      (Translator.make_params (translation_service st) (PyStr (strip s))
         source_lang target_lang) 10 = HttpResponse r ->
    status_code r <> 200%Z -> status_code r <> 400%Z -> status_code r <> 403%Z ->
    result_of (Translator.translate w (PyStr s) source_lang target_lang) st
    = Raise (TranslationError
               ("Translation failed: Translation service error: HTTP "
                ++ str_of_Z (status_code r))).
Proof.
  intros w s source_lang target_lang st r Hs Hsrc Htgt Hpost H200 H400 H403.
  destruct (translate_result w s source_lang target_lang st Hs Hsrc Htgt)
    as (rid & st' & ->).
  rewrite Hpost. unfold Translator.check_response.
  apply Z.eqb_neq in H200, H400, H403. rewrite H200, H400, H403.
  reflexivity.
Qed.

Lemma translate_reports_the_status_witness :
  result_of (Translator.translate (answering unavailable) (PyStr "Na nga def") "wo" "en")
    test_state
  = Raise (TranslationError
             ("Translation failed: Translation service error: HTTP "
              ++ str_of_Z (status_code unavailable))).
Proof.
  apply (translate_reports_the_status (answering unavailable) "Na nga def" "wo" "en"
           test_state unavailable).
  - discriminate.
  - reflexivity.
  - reflexivity.
  - reflexivity.
  - discriminate.
  - discriminate.
  - discriminate.
Defined.

(** With the text and both codes accepted, an answer of status 400
    whose body is an object makes [translate] raise a [TranslationError]
    with the remote message: [error.message] rendered as a string when the
    body has it, [Invalid request] when [error] (an object) has no
    [message] or the body has no [error] at all. *)
Theorem translate_reports_the_remote_message :
  forall w s source_lang target_lang st r b error_data,
    s <> "" ->
    Translator.supported (translation_service st) source_lang = true ->
    Translator.supported (translation_service st) target_lang = true ->
    requests_post w (base_url (translation_service st))
      (Translator.make_params (translation_service st) (PyStr (strip s))
         source_lang target_lang) 10 = HttpResponse r ->
    status_code r = 400%Z ->
    json r = inr (PyDict b) ->
    match dict_lookup "error" b with
    | Some v => v
    | None => PyDict []
    end = PyDict error_data ->
    result_of (Translator.translate w (PyStr s) source_lang target_lang) st
    = Raise (TranslationError
               ("Translation failed: Translation request invalid: "
                ++ py_str match dict_lookup "message" error_data with
                          | Some message => message
                          | None => PyStr "Invalid request"
                          end)).
Proof.
  intros w s source_lang target_lang st r b error_data Hs Hsrc Htgt Hpost H400 Hjson Herr.
  destruct (translate_result w s source_lang target_lang st Hs Hsrc Htgt)
    as (rid & st' & ->).
  rewrite Hpost. unfold Translator.check_response, Translator.response_json.
  rewrite H400, Hjson. cbn [Z.eqb Pos.eqb]. run. dyn. rewrite Herr. reflexivity.
Qed.

Lemma translate_reports_the_remote_message_witness :
  result_of (Translator.translate (answering bad_request) (PyStr "Na nga def") "wo" "en")
    test_state
  = Raise (TranslationError
             ("Translation failed: Translation request invalid: "
              ++ py_str match dict_lookup "message" [("message", PyStr "Bad language pair")] with
                        | Some message => message
                        | None => PyStr "Invalid request"
                        end)).
Proof.
  apply (translate_reports_the_remote_message (answering bad_request) "Na nga def" "wo" "en"
           test_state bad_request
           [("error", PyDict [("message", PyStr "Bad language pair")])]
           [("message", PyStr "Bad language pair")]).
  - discriminate.
  - reflexivity.
  - reflexivity.
  - reflexivity.
  - reflexivity.
  - reflexivity.
  - reflexivity.
Defined.

(** With the text and both codes accepted, an answer of status 200
    whose body is no JSON makes [translate] raise a [TranslationError]
    that says so, whatever the decoding error was. *)
Theorem translate_reports_an_unreadable_body :
  forall w s source_lang target_lang st r decoding_error,
    s <> "" ->
    Translator.supported (translation_service st) source_lang = true ->
    Translator.supported (translation_service st) target_lang = true ->
    requests_post w (base_url (translation_service st))
      (Translator.make_params (translation_service st) (PyStr (strip s))
         source_lang target_lang) 10 = HttpResponse r ->
    status_code r = 200%Z ->
    json r = inl decoding_error ->
    result_of (Translator.translate w (PyStr s) source_lang target_lang) st
    = Raise (TranslationError
               "Translation failed: Invalid response format from translation service").
Proof.
  intros w s source_lang target_lang st r msg Hs Hsrc Htgt Hpost H200 Hjson.
  apply (translate_200_failure w s source_lang target_lang st r (JSONDecodeError msg));
    try assumption.
  unfold Translator.read_translation, Translator.response_json.
  rewrite Hjson. reflexivity.
Qed.

Lemma translate_reports_an_unreadable_body_witness :
  result_of (Translator.translate (answering not_json) (PyStr "Na nga def") "wo" "en")
    test_state
  = Raise (TranslationError
             "Translation failed: Invalid response format from translation service").
Proof.
  apply (translate_reports_an_unreadable_body (answering not_json) "Na nga def" "wo" "en"
           test_state not_json "Expecting value: line 1 column 1 (char 0)").
  - discriminate.
  - reflexivity.
  - reflexivity.
  - reflexivity.
  - reflexivity.
  - reflexivity.
Defined.

(** *** The translation that succeeds *)

(** With the text and both codes accepted, an answer of status 200 whose
    body carries a non-empty string as [translatedText] makes [translate]
    return that string as it is (it is not stripped), after exactly one
    outbound call: the POST to the base URL with the stripped text, the
    two codes and the key, under a timeout of 10. *)
Theorem translate_returns_the_translated_text :
  forall w s source_lang target_lang st r t,
    s <> "" ->
    Translator.supported (translation_service st) source_lang = true ->
    Translator.supported (translation_service st) target_lang = true ->
    requests_post w (base_url (translation_service st))
      {| q := PyStr (strip s); source := source_lang; target := target_lang;
         key := api_key (translation_service st) |} 10 = HttpResponse r ->
    status_code r = 200%Z ->
    translated_text_of r = Some (PyStr t) ->
    t <> "" ->
    result_of (Translator.translate w (PyStr s) source_lang target_lang) st = Ok (PyStr t)
    /\ net_calls (state_after (Translator.translate w (PyStr s) source_lang target_lang) st)
       = (net_calls st
          ++ [HttpPost (base_url (translation_service st))
                {| q := PyStr (strip s); source := source_lang; target := target_lang;
                   key := api_key (translation_service st) |} 10])%list.
Proof.
  intros w s source_lang target_lang st r t Hs Hsrc Htgt Hpost H200 Htt Ht.
  split.
  - apply (translate_ok w s source_lang target_lang st r (PyStr t)); try assumption.
    + now apply nonempty_truthy.
    + reflexivity.
  - now apply translate_calls.
Qed.

Lemma translate_returns_the_translated_text_witness :
  result_of (Translator.translate (answering (ok_with (PyStr " Hello ")))
               (PyStr "  Na nga def ") "wo" "en") test_state
  = Ok (PyStr " Hello ")
  /\ net_calls (state_after (Translator.translate (answering (ok_with (PyStr " Hello ")))
                               (PyStr "  Na nga def ") "wo" "en") test_state)
     = (net_calls test_state
        ++ [HttpPost (base_url (translation_service test_state))
              {| q := PyStr (strip "  Na nga def "); source := "wo"; target := "en";
                 key := api_key (translation_service test_state) |} 10])%list.
Proof.
  apply (translate_returns_the_translated_text (answering (ok_with (PyStr " Hello ")))
           "  Na nga def " "wo" "en" test_state (ok_with (PyStr " Hello ")) " Hello ").
  - discriminate.
  - reflexivity.
  - reflexivity.
  - reflexivity.
  - reflexivity.
  - reflexivity.
  - discriminate.
Defined.

(** *** Outbound calls and log lines of one call *)

(** [translate] makes exactly one outbound call when it accepts the text
    and finds both codes in the table of languages, and none otherwise:
    never two, whatever the remote service answers. *)
Theorem translate_calls_out_at_most_once :
  forall w text source_lang target_lang st,
    net_calls (state_after (Translator.translate w text source_lang target_lang) st)
    = (net_calls st
       ++ match text with
          | PyStr s =>
              if negb (s =? "")
                 && Translator.supported (translation_service st) source_lang
                 && Translator.supported (translation_service st) target_lang
              then [HttpPost (base_url (translation_service st))
                      (Translator.make_params (translation_service st) (PyStr (strip s))
                         source_lang target_lang) 10]
              else []
          | _ => []
          end)%list.
Proof.
  intros w text source_lang target_lang st.
  destruct (py_truthy text && isinstance_str text) eqn:Htext.
  - destruct (truthy_str_inv text Htext) as (s & -> & Hs).
    apply String.eqb_neq in Hs as Hneq. rewrite Hneq. cbn [negb andb].
    destruct (supported_dec (translation_service st) source_lang) as [Hsrc | Hsrc];
      rewrite Hsrc; cbn [andb].
    + destruct (supported_dec (translation_service st) target_lang) as [Htgt | Htgt];
        rewrite Htgt.
      * now apply translate_calls.
      * unfold state_after. rewrite translate_unknown_target by assumption.
        cbn [snd]. now rewrite app_nil_r.
    + unfold state_after. rewrite translate_unknown_source by assumption.
      cbn [snd]. now rewrite app_nil_r.
  - unfold state_after. rewrite translate_rejects by assumption. cbn [snd add_log net_calls].
    destruct text; try (now rewrite app_nil_r).
    cbn in Htext. rewrite andb_true_r in Htext. rewrite Htext.
    now rewrite app_nil_r.
Qed.

Lemma prefix_tag rid tail :
  String.prefix (tag rid) ("[" ++ rid ++ tail) = String.prefix "]" tail.
Proof.
  unfold tag. cbn.
  induction rid as [| c rid IH]; cbn [append String.prefix]; [reflexivity |].
  destruct (ascii_dec c c) as [_ | Hc]; [exact IH | now destruct Hc].
Qed.

Section Tagged.
Context {A B : Type} (rid : string).

Lemma logs_tagged_ret (a : A) : logs_tagged rid (ret a).
Proof. intro st. exists []. split; [now rewrite app_nil_r | reflexivity]. Qed.

Lemma logs_tagged_raise (e : exn) : logs_tagged rid (@raise A e).
Proof. intro st. exists []. split; [now rewrite app_nil_r | reflexivity]. Qed.

Lemma logs_tagged_lift (r : result A) : logs_tagged rid (lift r).
Proof. intro st. exists []. split; [now rewrite app_nil_r | reflexivity]. Qed.

Lemma logs_tagged_bind (m : M A) (f : A -> M B) :
  logs_tagged rid m -> (forall a, logs_tagged rid (f a)) -> logs_tagged rid (bind m f).
Proof.
  intros Hm Hf st. unfold state_after. rewrite run_bind.
  destruct (Hm st) as (l1 & H1 & T1).
  destruct (result_of m st) as [a | e]; cbn [snd].
  - destruct (Hf a (state_after m st)) as (l2 & H2 & T2).
    exists (l1 ++ l2)%list. unfold state_after in *.
    rewrite H2, H1, forallb_app, T1, T2. now rewrite app_assoc.
  - eauto.
Qed.

Lemma logs_tagged_try_except (m : M A) (h : exn -> M A) :
  logs_tagged rid m -> (forall e, logs_tagged rid (h e)) ->
  logs_tagged rid (try_except m h).
Proof.
  intros Hm Hh st. unfold state_after. rewrite run_try_except.
  destruct (Hm st) as (l1 & H1 & T1).
  destruct (result_of m st) as [a | e]; cbn [snd].
  - eauto.
  - destruct (Hh e (state_after m st)) as (l2 & H2 & T2).
    exists (l1 ++ l2)%list. unfold state_after in *.
    rewrite H2, H1, forallb_app, T1, T2. now rewrite app_assoc.
Qed.

End Tagged.

Lemma logs_tagged_info rid tail :
  String.prefix "]" tail = true -> logs_tagged rid (logger_info ("[" ++ rid ++ tail)).
Proof.
  intros Htail st. exists [(INFO, "[" ++ rid ++ tail)]. split; [reflexivity |].
  cbn [forallb]. unfold tagged. cbn [snd]. now rewrite prefix_tag, Htail.
Qed.

Lemma logs_tagged_error rid tail :
  String.prefix "]" tail = true -> logs_tagged rid (logger_error ("[" ++ rid ++ tail)).
Proof.
  intros Htail st. exists [(ERROR, "[" ++ rid ++ tail)]. split; [reflexivity |].
  cbn [forallb]. unfold tagged. cbn [snd]. now rewrite prefix_tag, Htail.
Qed.

Ltac tagged_step :=
  match goal with
  | |- logs_tagged _ _ => solve [auto 1]
  | |- logs_tagged _ (bind _ _) => apply logs_tagged_bind; [| intro]
  | |- logs_tagged _ (try_except _ _) => apply logs_tagged_try_except; [| intro]
  | |- logs_tagged _ (if ?c then _ else _) => destruct c
  | |- logs_tagged _ (match ?x with _ => _ end) => destruct x
  | |- logs_tagged _ (logger_info _) => apply logs_tagged_info; reflexivity
  | |- logs_tagged _ (logger_error _) => apply logs_tagged_error; reflexivity
  | |- logs_tagged _ (ret _) => apply logs_tagged_ret
  | |- logs_tagged _ (raise _) => apply logs_tagged_raise
  | |- logs_tagged _ (lift _) => apply logs_tagged_lift
  end.

Lemma logs_tagged_check_response rid r : logs_tagged rid (Translator.check_response rid r).
Proof.
  unfold Translator.check_response, Translator.read_translation,
    Translator.validate_translation_response, Translator.response_json.
  repeat tagged_step.
Qed.

Lemma logs_tagged_translation_failed rid e :
  logs_tagged rid (Translator.translation_failed rid e).
Proof. unfold Translator.translation_failed. repeat tagged_step. Qed.

Lemma tagged_line rid lvl tail :
  String.prefix "]" tail = true -> tagged rid (lvl, "[" ++ rid ++ tail) = true.
Proof. intros Htail. unfold tagged. cbn [snd]. now rewrite prefix_tag. Qed.

Lemma logs_tagged_request_translation w rid s source_lang target_lang st :
  Translator.supported (translation_service st) source_lang = true ->
  Translator.supported (translation_service st) target_lang = true ->
  exists lines,
    log (state_after
           (Translator.request_translation w rid (PyStr s) source_lang target_lang) st)
    = (log st ++ lines)%list
    /\ forallb (tagged rid) lines = true.
Proof.
  intros Hsrc Htgt. unfold state_after.
  rewrite request_translation_run by assumption.
  destruct (requests_post w _ _ 10) as [e | r]; cbn [snd].
  - eexists. split; [reflexivity |].
    cbn [forallb]. now rewrite tagged_line.
  - destruct (logs_tagged_check_response rid r
                (received rid r
                   (sent rid
                      (Translator.make_params (translation_service st) (PyStr (strip s))
                         source_lang target_lang) st)))
      as (lines & Hlog & Htag).
    unfold state_after in Hlog. rewrite Hlog.
    cbn [received sent add_log add_call log].
    rewrite <- !app_assoc. eexists. split; [reflexivity |].
    cbn [app forallb]. rewrite !tagged_line by reflexivity. exact Htag.
Qed.

(** Every line an accepted call of [translate] writes to the log starts
    with the identifier drawn for that call, in brackets, and there is at
    least one; whether the call ends with a translation, a [KeyError] or a
    [TranslationError].  In particular the two error lines of
    [validate_language_codes], which carry no identifier, are never
    written by [translate]. *)
Theorem translate_tags_its_log_lines :
  forall w s source_lang target_lang st,
    s <> "" ->
    exists first lines,
      log (state_after (Translator.translate w (PyStr s) source_lang target_lang) st)
      = (log st ++ first :: lines)%list
      /\ first = (INFO, "[" ++ next_id w st ++ "] Starting translation request")
      /\ forallb (tagged (next_id w st)) (first :: lines) = true.
Proof.
  intros w s source_lang target_lang st Hs.
  destruct (supported_dec (translation_service st) source_lang) as [Hsrc | Hsrc].
  2:{ unfold state_after. rewrite translate_unknown_source by assumption.
      eexists; exists []. split; [reflexivity |]. split; [reflexivity |].
      cbn [forallb]. now rewrite tagged_line. }
  destruct (supported_dec (translation_service st) target_lang) as [Htgt | Htgt].
  2:{ unfold state_after. rewrite translate_unknown_target by assumption.
      eexists; exists []. split; [reflexivity |]. split; [reflexivity |].
      cbn [forallb]. now rewrite tagged_line. }
  destruct (supported_lookup _ _ Hsrc) as [sn Hsn].
  destruct (supported_lookup _ _ Htgt) as [tn Htn].
  destruct (preview_str s) as [shown Hshown].
  unfold state_after at 1.
  rewrite (translate_enters_try w s source_lang target_lang st sn tn shown) by assumption.
  rewrite run_try_except.
  set (rid := next_id w st).
  set (st0 := started w shown sn tn st).
  destruct (logs_tagged_request_translation w rid s source_lang target_lang st0 Hsrc Htgt)
    as (l1 & H1 & T1).
  assert (H0 : log st0
               = List.app (log st)
                   [(INFO, "[" ++ rid ++ "] Starting translation request");
                    (INFO, "[" ++ rid ++ "] From " ++ sn ++ " to " ++ tn);
                    (INFO, "[" ++ rid ++ "] Input text: " ++ shown)]).
  { unfold st0, started. cbn [add_log set_request_id log]. fold rid.
    now rewrite <- !app_assoc. }
  destruct (result_of _ st0) as [v | e]; cbn [snd].
  - rewrite H1, H0, <- app_assoc. cbn [app].
    eexists; eexists. split; [reflexivity |]. split; [reflexivity |].
    cbn [forallb]. rewrite !tagged_line by reflexivity. exact T1.
  - destruct (logs_tagged_translation_failed rid e
                (state_after
                   (Translator.request_translation w rid (PyStr s) source_lang target_lang)
                   st0))
      as (l2 & H2 & T2).
    unfold state_after at 1 in H2. rewrite H2, H1, H0, <- !app_assoc. cbn [app].
    eexists; eexists. split; [reflexivity |]. split; [reflexivity |].
    cbn [forallb]. rewrite !tagged_line by reflexivity.
    cbn [andb]. now rewrite forallb_app, T1, T2.
Qed.

Lemma translate_tags_its_log_lines_witness :
  exists first lines,
    log (state_after (Translator.translate greeting_world (PyStr "Asalaa maalekum") "wo" "en")
           later_state)
    = (log later_state ++ first :: lines)%list
    /\ first = (INFO, "[" ++ next_id greeting_world later_state
                      ++ "] Starting translation request")
    /\ forallb (tagged (next_id greeting_world later_state)) (first :: lines) = true.
Proof.
  apply (translate_tags_its_log_lines greeting_world "Asalaa maalekum" "wo" "en" later_state).
  discriminate.
Defined.

(** *** The model client *)

Lemma query_model_run w prompt st :
  let this := data_model_service st in
  let messages := PyList [PyDict [("role", PyStr "user"); ("content", prompt)]] in
  let called := add_call (GroqCreate (groq_api_key this) messages (model_name this)) st in
  DataModel.query_model w prompt st
  = match chat_completions_create w (groq_api_key this) messages (model_name this) with
    | ChatCompletion (content :: _) => (Ok content, called)
    | ChatCompletion [] =>
        (Raise (Exception "Failed to query the model."),
         add_log (ERROR, "Error querying Ollama model: list index out of range") called)
    | GroqRaises e =>
        (Raise (Exception "Failed to query the model."),
         add_log (ERROR, "Error querying Ollama model: " ++ exn_str e) called)
    end.
Proof.
  intros this messages called.
  unfold DataModel.query_model, DataModel.create. run.
  fold this messages.
  destruct (chat_completions_create w (groq_api_key this) messages (model_name this))
    as [e | [| content choices]]; reflexivity.
Qed.

(** [query_model] makes exactly one outbound call, a chat completion with
    the key and the model of the service and a single message of role
    [user] whose content is the prompt; it returns the content of the
    first choice as it is, and turns every failure, an exception of the
    client as well as an empty list of choices, into the same bare
    [Exception]. *)
Theorem query_model_returns_the_first_choice :
  forall w prompt st,
    let this := data_model_service st in
    let messages := PyList [PyDict [("role", PyStr "user"); ("content", prompt)]] in
    result_of (DataModel.query_model w prompt) st
    = match chat_completions_create w (groq_api_key this) messages (model_name this) with
      | ChatCompletion (content :: _) => Ok content
      | _ => Raise (Exception "Failed to query the model.")
      end
    /\ net_calls (state_after (DataModel.query_model w prompt) st)
       = (net_calls st ++ [GroqCreate (groq_api_key this) messages (model_name this)])%list.
Proof.
  intros w prompt st this messages.
  unfold result_of, state_after. rewrite query_model_run. fold this messages.
  destruct (chat_completions_create w (groq_api_key this) messages (model_name this))
    as [e | [| content choices]]; split; reflexivity.
Qed.

(** [process_query] of the model client rejects a query that is empty or
    no string with a [ValueError], and does so before anything else: the
    state is left as it was, so that no outbound call is made and nothing
    is logged. *)
Theorem model_client_rejects_an_invalid_query :
  forall w query st,
    py_truthy query && isinstance_str query = false ->
    DataModel.process_query w query st
    = (Raise (ValueError "Query must be a non-empty string"), st).
Proof.
  intros w query st Hquery. unfold DataModel.process_query.
  replace (negb (py_truthy query) || negb (isinstance_str query)) with true
    by (rewrite <- negb_andb, Hquery; reflexivity).
  reflexivity.
Qed.

Lemma model_client_rejects_an_invalid_query_witness :
  DataModel.process_query greeting_world (PyStr "") test_state
  = (Raise (ValueError "Query must be a non-empty string"), test_state).
Proof.
  apply (model_client_rejects_an_invalid_query greeting_world (PyStr "") test_state).
  reflexivity.
Defined.

Lemma model_process_query_run w s st :
  s <> "" ->
  let this := data_model_service st in
  let messages :=
    PyList [PyDict [("role", PyStr "user"); ("content", PyStr (strip s))]] in
  let called := add_call (GroqCreate (groq_api_key this) messages (model_name this)) st in
  let failed inner :=
    (Raise (Exception "Query processing failed: Failed to query the model."),
     add_log (ERROR, "Error processing query: Failed to query the model.")
       (add_log (ERROR, "Error querying Ollama model: " ++ inner) called)) in
  DataModel.process_query w (PyStr s) st
  = match chat_completions_create w (groq_api_key this) messages (model_name this) with
    | ChatCompletion (content :: _) =>
        (Ok content, add_log (INFO, "Model response for query: " ++ s) called)
    | ChatCompletion [] => failed "list index out of range"
    | GroqRaises e => failed (exn_str e)
    end.
Proof.
  intros Hs this messages called failed.
  unfold DataModel.process_query.
  rewrite (nonempty_truthy s Hs). cbn [negb orb isinstance_str py_strip].
  run. rewrite query_model_run. fold this messages called.
  destruct (chat_completions_create w (groq_api_key this) messages (model_name this))
    as [e | [| content choices]]; reflexivity.
Qed.

(** For a non-empty string, [process_query] of the model client sends
    the stripped query as the prompt, in exactly one outbound call, and
    returns the content of the first choice as it is; every failure of the
    call leaves it as a bare [Exception] with one and the same message. *)
Theorem model_client_answers_with_the_first_choice :
  forall w s st,
    s <> "" ->
    let this := data_model_service st in
    let messages :=
      PyList [PyDict [("role", PyStr "user"); ("content", PyStr (strip s))]] in
    result_of (DataModel.process_query w (PyStr s)) st
    = match chat_completions_create w (groq_api_key this) messages (model_name this) with
      | ChatCompletion (content :: _) => Ok content
      | _ => Raise (Exception "Query processing failed: Failed to query the model.")
      end
    /\ net_calls (state_after (DataModel.process_query w (PyStr s)) st)
       = (net_calls st ++ [GroqCreate (groq_api_key this) messages (model_name this)])%list.
Proof.
  intros w s st Hs this messages.
  unfold result_of, state_after. rewrite (model_process_query_run w s st Hs).
  fold this messages.
  destruct (chat_completions_create w (groq_api_key this) messages (model_name this))
    as [e | [| content choices]]; split; reflexivity.
Qed.

Lemma model_client_answers_with_the_first_choice_witness :
  result_of (DataModel.process_query greeting_world (PyStr " Hello ")) test_state
  = match chat_completions_create greeting_world
            (groq_api_key (data_model_service test_state))
            (PyList [PyDict [("role", PyStr "user"); ("content", PyStr (strip " Hello "))]])
            (model_name (data_model_service test_state)) with
    | ChatCompletion (content :: _) => Ok content
    | _ => Raise (Exception "Query processing failed: Failed to query the model.")
    end
  /\ net_calls (state_after (DataModel.process_query greeting_world (PyStr " Hello "))
                  test_state)
     = (net_calls test_state
        ++ [GroqCreate (groq_api_key (data_model_service test_state))
              (PyList [PyDict [("role", PyStr "user");
                               ("content", PyStr (strip " Hello "))]])
              (model_name (data_model_service test_state))])%list.
Proof.
  apply (model_client_answers_with_the_first_choice greeting_world " Hello " test_state).
  discriminate.
Defined.

(** *** The handler *)

(** The handler, stage by stage, once the query has passed the test. *)
Lemma process_query_run svc d v st :
  dict_lookup "query" d = Some v ->
  py_truthy v = true ->
  Main.process_query svc {| Main.get_json := Ok (PyDict d) |} st
  = match Main.translation_service_translate svc v "wo" "en"
            (add_log (INFO, "Translating query from Wolof to French: " ++ py_str v) st) with
    | (Raise e, st1) => server_error e st1
    | (Ok french_query, st1) =>
        match Main.data_model_service_process_query svc french_query
                (add_log (INFO, "Processing French query: " ++ py_str french_query) st1) with
        | (Raise e, st2) => server_error e st2
        | (Ok french_response, st2) =>
            match Main.translation_service_translate svc french_response "en" "wo"
                    (add_log (INFO, "Translating response to Wolof: "
                                    ++ py_str french_response) st2) with
            | (Raise e, st3) => server_error e st3
            | (Ok wolof_response, st3) =>
                (Ok (Main.jsonify [("original_query", v);
                                   ("french_query", french_query);
                                   ("french_response", french_response);
                                   ("wolof_response", wolof_response)] 200), st3)
            end
        end
    end.
Proof.
  intros Hquery Htruthy.
  unfold Main.process_query, try_except.
  rewrite (pipeline_enters svc d v st Hquery Htruthy).
  unfold after_translation, bind, logger_info, ret.
  destruct (Main.translation_service_translate svc v "wo" "en" _)
    as [[french_query | e] st1]; [| reflexivity].
  destruct (Main.data_model_service_process_query svc french_query _)
    as [[french_response | e] st2]; [| reflexivity].
  destruct (Main.translation_service_translate svc french_response "en" "wo" _)
    as [[wolof_response | e] st3]; reflexivity.
Qed.

Lemma pipeline_status svc req st reply :
  result_of (Main.pipeline svc req) st = Ok reply ->
  Main.status reply = 200%Z \/ Main.status reply = 400%Z.
Proof.
  unfold Main.pipeline. run.
  repeat (split_match; run); try discriminate; intros [= <-]; auto.
Qed.

(** The handler never raises: whatever the request and whatever the two
    services do, it returns a reply, and the status of that reply is 200,
    400 or 500. *)
Theorem handler_always_replies :
  forall svc req st,
    exists reply,
      result_of (Main.process_query svc req) st = Ok reply
      /\ (Main.status reply = 200%Z \/ Main.status reply = 400%Z
          \/ Main.status reply = 500%Z).
Proof.
  intros svc req st.
  unfold Main.process_query. rewrite result_try_except.
  destruct (result_of (Main.pipeline svc req) st) as [reply | e] eqn:Hpipe.
  - exists reply. split; [reflexivity |].
    destruct (pipeline_status svc req st reply Hpipe); auto.
  - eexists. split; [reflexivity |]. auto.
Qed.

(** A body that is an object without [query], or with a [query] that is
    falsy (empty string, [null], zero, [false], empty list or object), is
    answered 400 with [No query provided]; neither service is called and
    nothing is logged: the state is left as it was. *)
Theorem handler_answers_400_without_a_query :
  forall svc d st,
    match dict_lookup "query" d with
    | Some v => py_truthy v
    | None => false
    end = false ->
    Main.process_query svc {| Main.get_json := Ok (PyDict d) |} st
    = (Ok (Main.jsonify [("error", PyStr "No query provided")] 400), st).
Proof.
  intros svc d st Hquery.
  unfold Main.process_query, Main.pipeline. cbn [Main.get_json]. run. cbn [py_get].
  destruct (dict_lookup "query" d) as [v |]; run.
  - now rewrite Hquery.
  - reflexivity.
Qed.

Lemma handler_answers_400_without_a_query_witness :
  Main.process_query (Main.app_services greeting_world)
    {| Main.get_json := Ok (PyDict [("query", PyList [])]) |} test_state
  = (Ok (Main.jsonify [("error", PyStr "No query provided")] 400), test_state).
Proof.
  apply (handler_answers_400_without_a_query (Main.app_services greeting_world)
           [("query", PyList [])] test_state).
  reflexivity.
Defined.

(** A request whose body cannot be read, or whose body is no object, is
    answered 500 with the message of the exception, that of the reader or
    the [AttributeError] of the missing [get]; neither service is called. *)
Theorem handler_answers_500_to_a_body_that_is_no_object :
  forall svc req st,
    match Main.get_json req with
    | Ok data => isinstance_dict data = false
    | Raise _ => True
    end ->
    let e := match Main.get_json req with
             | Ok data =>
                 AttributeError ("'" ++ type_name data ++ "' object has no attribute 'get'")
             | Raise e => e
             end in
    Main.process_query svc req st
    = (Ok (Main.jsonify [("error", PyStr (exn_str e))] 500),
       add_log (ERROR, "Error processing query: " ++ exn_str e) st).
Proof.
  intros svc [[data | e]] st Hbody; cbn [Main.get_json] in *.
  - unfold Main.process_query, Main.pipeline. cbn [Main.get_json]. run.
    destruct data; try discriminate; reflexivity.
  - reflexivity.
Qed.

Lemma handler_answers_500_to_a_body_that_is_no_object_witness :
  Main.process_query (Main.app_services greeting_world)
    {| Main.get_json := Ok (PyList [PyStr "query"]) |} test_state
  = (Ok (Main.jsonify [("error", PyStr "'list' object has no attribute 'get'")] 500),
     add_log (ERROR, "Error processing query: 'list' object has no attribute 'get'")
       test_state).
Proof.
  apply (handler_answers_500_to_a_body_that_is_no_object (Main.app_services greeting_world)
           {| Main.get_json := Ok (PyList [PyStr "query"]) |} test_state).
  reflexivity.
Defined.

(** When all three stages return, the handler answers 200 with the
    query as it came (it is not stripped) and the value each stage
    returned, each of which was passed as it is to the next stage. *)
Theorem handler_returns_what_the_stages_return :
  forall svc d v st french_query french_response wolof_response st1 st2 st3,
    dict_lookup "query" d = Some v ->
    py_truthy v = true ->
    Main.translation_service_translate svc v "wo" "en"
      (add_log (INFO, "Translating query from Wolof to French: " ++ py_str v) st)
    = (Ok french_query, st1) ->
    Main.data_model_service_process_query svc french_query
      (add_log (INFO, "Processing French query: " ++ py_str french_query) st1)
    = (Ok french_response, st2) ->
    Main.translation_service_translate svc french_response "en" "wo"
      (add_log (INFO, "Translating response to Wolof: " ++ py_str french_response) st2)
    = (Ok wolof_response, st3) ->
    Main.process_query svc {| Main.get_json := Ok (PyDict d) |} st
    = (Ok (Main.jsonify [("original_query", v);
                         ("french_query", french_query);
                         ("french_response", french_response);
                         ("wolof_response", wolof_response)] 200), st3).
Proof.
  intros svc d v st fq fr wr st1 st2 st3 Hquery Htruthy H1 H2 H3.
  now rewrite (process_query_run svc d v st Hquery Htruthy), H1, H2, H3.
Qed.

Lemma handler_returns_what_the_stages_return_witness :
  result_of (Main.process_query (Main.app_services greeting_world)
               {| Main.get_json := Ok (PyDict [("query", PyStr " Na nga def ")]) |})
    test_state
  = Ok (Main.jsonify [("original_query", PyStr " Na nga def ");
                      ("french_query", PyStr "Na nga def");
                      ("french_response", PyStr "Hi there");
                      ("wolof_response", PyStr "Hi there")] 200).
Proof.
  unfold result_of.
  erewrite (handler_returns_what_the_stages_return (Main.app_services greeting_world)
              [("query", PyStr " Na nga def ")] (PyStr " Na nga def ") test_state).
  - reflexivity.
  - reflexivity.
  - reflexivity.
  - lazy. reflexivity.
  - lazy. reflexivity.
  - lazy. reflexivity.
Defined.

(** The first stage that raises ends the pipeline: the handler answers
    500 with the message of that exception, logs it as an error, and the
    state it leaves is the one the failing stage left, so that no later
    stage is run. *)
Theorem handler_stops_at_the_first_failure :
  forall svc d v st,
    dict_lookup "query" d = Some v ->
    py_truthy v = true ->
    let request := {| Main.get_json := Ok (PyDict d) |} in
    let failed e st' :=
      (Ok (Main.jsonify [("error", PyStr (exn_str e))] 500),
       add_log (ERROR, "Error processing query: " ++ exn_str e) st') in
    let st0 := add_log (INFO, "Translating query from Wolof to French: " ++ py_str v) st in
    (forall e st1,
        Main.translation_service_translate svc v "wo" "en" st0 = (Raise e, st1) ->
        Main.process_query svc request st = failed e st1)
    /\ (forall french_query st1 e st2,
          Main.translation_service_translate svc v "wo" "en" st0 = (Ok french_query, st1) ->
          Main.data_model_service_process_query svc french_query
            (add_log (INFO, "Processing French query: " ++ py_str french_query) st1)
          = (Raise e, st2) ->
          Main.process_query svc request st = failed e st2)
    /\ (forall french_query st1 french_response st2 e st3,
          Main.translation_service_translate svc v "wo" "en" st0 = (Ok french_query, st1) ->
          Main.data_model_service_process_query svc french_query
            (add_log (INFO, "Processing French query: " ++ py_str french_query) st1)
          = (Ok french_response, st2) ->
          Main.translation_service_translate svc french_response "en" "wo"
            (add_log (INFO, "Translating response to Wolof: " ++ py_str french_response) st2)
          = (Raise e, st3) ->
          Main.process_query svc request st = failed e st3).
Proof.
  intros svc d v st Hquery Htruthy request failed st0.
  unfold request. rewrite (process_query_run svc d v st Hquery Htruthy). fold st0.
  repeat split.
  - intros e st1 ->. reflexivity.
  - intros fq st1 e st2 -> ->. reflexivity.
  - intros fq st1 fr st2 e st3 -> -> ->. reflexivity.
Qed.

Lemma handler_stops_at_the_first_failure_witness :
  result_of (Main.process_query (Main.app_services model_down)
               (with_query (PyStr "Na nga def"))) test_state
  = Ok (Main.jsonify
          [("error", PyStr "Query processing failed: Failed to query the model.")] 500).
Proof.
  unfold result_of, with_query.
  erewrite (proj1 (proj2 (handler_stops_at_the_first_failure (Main.app_services model_down)
                            [("query", PyStr "Na nga def")] (PyStr "Na nga def") test_state
                            eq_refl eq_refl))).
  2: lazy; reflexivity.
  2: lazy; reflexivity.
  reflexivity.
Defined.

(** *** The pipeline over the real clients *)

Lemma supported_counted this lang :
  Translator.supported (counted this) lang = Translator.supported this lang.
Proof. reflexivity. Qed.

(** A translation that succeeds, with the state it leaves. *)
Lemma translate_ok_run w s source_lang target_lang st r t :
  s <> "" ->
  Translator.supported (translation_service st) source_lang = true ->
  Translator.supported (translation_service st) target_lang = true ->
  requests_post w (base_url (translation_service st))
    (Translator.make_params (translation_service st) (PyStr (strip s))
       source_lang target_lang) 10 = HttpResponse r ->
  status_code r = 200%Z ->
  translated_text_of r = Some (PyStr t) ->
  t <> "" ->
  exists st',
    Translator.translate w (PyStr s) source_lang target_lang st = (Ok (PyStr t), st')
    /\ translation_service st' = counted (translation_service st)
    /\ data_model_service st' = data_model_service st
    /\ net_calls st'
       = (net_calls st
          ++ [HttpPost (base_url (translation_service st))
                (Translator.make_params (translation_service st) (PyStr (strip s))
                   source_lang target_lang) 10])%list.
Proof.
  intros Hs Hsrc Htgt Hpost H200 Htt Ht.
  exists (state_after (Translator.translate w (PyStr s) source_lang target_lang) st).
  split; [| split; [| split]].
  - rewrite (surjective_pairing (Translator.translate w _ source_lang target_lang st)).
    f_equal.
    apply (translate_ok w s source_lang target_lang st r (PyStr t)); try assumption.
    + now apply nonempty_truthy.
    + reflexivity.
  - rewrite (proj1 (translate_services_after w (PyStr s) source_lang target_lang st)).
    now rewrite (nonempty_truthy s Hs).
  - apply translate_services_after.
  - now apply translate_calls.
Qed.

(** End to end, over the real clients: for a non-empty query, when the
    translation API answers 200 with a non-empty string to both
    translations and the model API answers with a non-empty string as its
    first choice, the handler answers 200 with the query as it came and
    the three answers as they came; it makes exactly three outbound calls,
    in the order translation, model, translation back, each carrying the
    stripped text of the stage before; and two request identifiers are
    drawn. *)
Theorem pipeline_end_to_end :
  forall w d s st r1 t1 c choices r2 t2,
    let this := translation_service st in
    let model := data_model_service st in
    let post1 := Translator.make_params this (PyStr (strip s)) "wo" "en" in
    let messages :=
      PyList [PyDict [("role", PyStr "user"); ("content", PyStr (strip t1))]] in
    let post2 := Translator.make_params this (PyStr (strip c)) "en" "wo" in
    dict_lookup "query" d = Some (PyStr s) -> s <> "" ->
    Translator.supported this "wo" = true ->
    Translator.supported this "en" = true ->
    requests_post w (base_url this) post1 10 = HttpResponse r1 ->
    status_code r1 = 200%Z -> translated_text_of r1 = Some (PyStr t1) -> t1 <> "" ->
    chat_completions_create w (groq_api_key model) messages (model_name model)
    = ChatCompletion (PyStr c :: choices) ->
    c <> "" ->
    requests_post w (base_url this) post2 10 = HttpResponse r2 ->
    status_code r2 = 200%Z -> translated_text_of r2 = Some (PyStr t2) -> t2 <> "" ->
    let after :=
      state_after (Main.process_query (Main.app_services w)
                     {| Main.get_json := Ok (PyDict d) |}) st in
    result_of (Main.process_query (Main.app_services w)
                 {| Main.get_json := Ok (PyDict d) |}) st
    = Ok (Main.jsonify [("original_query", PyStr s);
                        ("french_query", PyStr t1);
                        ("french_response", PyStr c);
                        ("wolof_response", PyStr t2)] 200)
    /\ net_calls after
       = (net_calls st
          ++ [HttpPost (base_url this) post1 10;
              GroqCreate (groq_api_key model) messages (model_name model);
              HttpPost (base_url this) post2 10])%list
    /\ request_id (translation_service after) = S (S (request_id this)).
Proof.
  intros w d s st r1 t1 c choices r2 t2 this model post1 messages post2
    Hquery Hs Hwo Hen Hpost1 H1 Htt1 Ht1 Hchat Hc Hpost2 H2 Htt2 Ht2 after.
  pose proof (nonempty_truthy s Hs) as Htruthy.
  unfold after, result_of, state_after.
  rewrite (process_query_run _ d (PyStr s) st Hquery Htruthy).
  cbn [Main.app_services Main.translation_service_translate
       Main.data_model_service_process_query].
  set (st0 := add_log _ st).
  destruct (translate_ok_run w s "wo" "en" st0 r1 t1 Hs Hwo Hen Hpost1 H1 Htt1 Ht1)
    as (st1 & -> & Hts1 & Hdm1 & Hcalls1).
  set (st1' := add_log _ st1).
  pose proof (model_process_query_run w t1 st1' Ht1) as Hmodel.
  cbv zeta in Hmodel.
  change (data_model_service st1') with (data_model_service st1) in Hmodel.
  rewrite Hdm1 in Hmodel.
  change (data_model_service st0) with model in Hmodel.
  fold messages in Hmodel. rewrite Hchat in Hmodel. rewrite Hmodel. clear Hmodel.
  set (st2 := add_log _ (add_call _ st1')).
  set (st2' := add_log _ st2).
  assert (Hts2 : translation_service st2' = counted this) by exact Hts1.
  assert (Hpost2' :
            requests_post w (base_url (translation_service st2'))
              (Translator.make_params (translation_service st2') (PyStr (strip c))
                 "en" "wo") 10 = HttpResponse r2)
    by (rewrite Hts2; exact Hpost2).
  assert (Hen2 : Translator.supported (translation_service st2') "en" = true)
    by (rewrite Hts2; exact Hen).
  assert (Hwo2 : Translator.supported (translation_service st2') "wo" = true)
    by (rewrite Hts2; exact Hwo).
  destruct (translate_ok_run w c "en" "wo" st2' r2 t2 Hc Hen2 Hwo2 Hpost2' H2 Htt2 Ht2)
    as (st3 & -> & Hts3 & Hdm3 & Hcalls3).
  cbn [fst snd]. split; [reflexivity |]. split.
  - rewrite Hcalls3, Hts2.
    change (net_calls st2') with (net_calls st1 ++ [GroqCreate (groq_api_key model) messages
                                                     (model_name model)])%list.
    rewrite Hcalls1. change (net_calls st0) with (net_calls st).
    rewrite <- !app_assoc. reflexivity.
  - rewrite Hts3, Hts2. reflexivity.
Qed.

Lemma pipeline_end_to_end_witness :
  result_of (Main.process_query (Main.app_services greeting_world)
               {| Main.get_json := Ok (PyDict [("query", PyStr " Asalaa maalekum ")]) |})
    later_state
  = Ok (Main.jsonify [("original_query", PyStr " Asalaa maalekum ");
                      ("french_query", PyStr "Hello");
                      ("french_response", PyStr "Hi there");
                      ("wolof_response", PyStr "Hi there")] 200)
  /\ net_calls (state_after
                  (Main.process_query (Main.app_services greeting_world)
                     {| Main.get_json := Ok (PyDict [("query", PyStr " Asalaa maalekum ")]) |})
                  later_state)
     = (net_calls later_state
        ++ [HttpPost (base_url (translation_service later_state))
              (Translator.make_params (translation_service later_state)
                 (PyStr (strip " Asalaa maalekum ")) "wo" "en") 10;
            GroqCreate (groq_api_key (data_model_service later_state))
              (PyList [PyDict [("role", PyStr "user"); ("content", PyStr (strip "Hello"))]])
              (model_name (data_model_service later_state));
            HttpPost (base_url (translation_service later_state))
              (Translator.make_params (translation_service later_state)
                 (PyStr (strip "Hi there")) "en" "wo") 10])%list
  /\ request_id (translation_service
                   (state_after
                      (Main.process_query (Main.app_services greeting_world)
                         {| Main.get_json :=
                              Ok (PyDict [("query", PyStr " Asalaa maalekum ")]) |})
                      later_state))
     = S (S (request_id (translation_service later_state))).
Proof.
  apply (pipeline_end_to_end greeting_world [("query", PyStr " Asalaa maalekum ")]
           " Asalaa maalekum " later_state (ok_with (PyStr "Hello")) "Hello" "Hi there" []
           (ok_with (PyStr "Hi there")) "Hi there").
  - reflexivity.
  - discriminate.
  - reflexivity.
  - reflexivity.
  - reflexivity.
  - reflexivity.
  - reflexivity.
  - discriminate.
  - reflexivity.
  - discriminate.
  - reflexivity.
  - reflexivity.
  - reflexivity.
  - discriminate.
Defined.

(** Over the real clients, a failure ends the outbound calls as well.
    When the first translation of an accepted query raises, the handler
    answers 500 with the message of that exception and the model API is
    never called: the POST of the translation is the only outbound call.
    When the translation returns a non-empty string and the model API
    raises or returns no choice, the handler answers 500 with the message
    of the model client, after exactly these two calls: there is no
    translation back. *)
Theorem handler_calls_nothing_after_a_failure :
  forall w d s st,
    let this := translation_service st in
    let model := data_model_service st in
    let request := {| Main.get_json := Ok (PyDict d) |} in
    let post1 := HttpPost (base_url this)
                   (Translator.make_params this (PyStr (strip s)) "wo" "en") 10 in
    let st0 := add_log (INFO, "Translating query from Wolof to French: " ++ s) st in
    dict_lookup "query" d = Some (PyStr s) -> s <> "" ->
    Translator.supported this "wo" = true ->
    Translator.supported this "en" = true ->
    (forall e,
        result_of (Translator.translate w (PyStr s) "wo" "en") st0 = Raise e ->
        result_of (Main.process_query (Main.app_services w) request) st
        = Ok (Main.jsonify [("error", PyStr (exn_str e))] 500)
        /\ net_calls (state_after (Main.process_query (Main.app_services w) request) st)
           = (net_calls st ++ [post1])%list)
    /\ (forall r t,
          let messages :=
            PyList [PyDict [("role", PyStr "user"); ("content", PyStr (strip t))]] in
          requests_post w (base_url this)
            (Translator.make_params this (PyStr (strip s)) "wo" "en") 10 = HttpResponse r ->
          status_code r = 200%Z -> translated_text_of r = Some (PyStr t) -> t <> "" ->
          match chat_completions_create w (groq_api_key model) messages (model_name model) with
          | ChatCompletion (_ :: _) => False
          | _ => True
          end ->
          result_of (Main.process_query (Main.app_services w) request) st
          = Ok (Main.jsonify
                  [("error", PyStr "Query processing failed: Failed to query the model.")]
                  500)
          /\ net_calls (state_after (Main.process_query (Main.app_services w) request) st)
             = (net_calls st
                ++ [post1; GroqCreate (groq_api_key model) messages (model_name model)])%list).
Proof.
  intros w d s st this model request post1 st0 Hquery Hs Hwo Hen.
  pose proof (nonempty_truthy s Hs) as Htruthy.
  assert (Hrun := process_query_run (Main.app_services w) d (PyStr s) st Hquery Htruthy).
  cbn [Main.app_services Main.translation_service_translate
       Main.data_model_service_process_query py_str] in Hrun.
  fold st0 in Hrun.
  split.
  - intros e Hraise.
    pose proof (translate_calls w s "wo" "en" st0 Hs Hwo Hen) as Hcalls.
    unfold result_of, state_after in *. unfold request. rewrite Hrun.
    destruct (Translator.translate w (PyStr s) "wo" "en" st0) as [[v | e'] st1];
      cbn [fst snd] in *; [discriminate |].
    injection Hraise as ->. split; [reflexivity | exact Hcalls].
  - intros r t messages Hpost H200 Htt Ht Hchat.
    destruct (translate_ok_run w s "wo" "en" st0 r t Hs Hwo Hen Hpost H200 Htt Ht)
      as (st1 & Htr & Hts1 & Hdm1 & Hcalls1).
    unfold result_of, state_after, request. rewrite Hrun, Htr.
    set (st1' := add_log _ st1).
    pose proof (model_process_query_run w t st1' Ht) as Hmodel.
    cbv zeta in Hmodel.
    change (data_model_service st1') with (data_model_service st1) in Hmodel.
    rewrite Hdm1 in Hmodel.
    change (data_model_service st0) with model in Hmodel.
    fold messages in Hmodel. rewrite Hmodel. clear Hmodel.
    destruct (chat_completions_create w (groq_api_key model) messages (model_name model))
      as [e | [| content choices]]; [| | contradiction];
      (split; [reflexivity |]);
      cbn [snd server_error bind logger_error ret add_log add_call net_calls];
      unfold server_error; run; cbn [add_log add_call net_calls];
      change (net_calls st1') with (net_calls st1); rewrite Hcalls1;
      change (net_calls st0) with (net_calls st);
      rewrite <- !app_assoc; reflexivity.
Qed.

Lemma handler_calls_nothing_after_a_failure_witness :
  result_of (Main.process_query (Main.app_services model_down)
               {| Main.get_json := Ok (PyDict [("query", PyStr "Na nga def")]) |})
    test_state
  = Ok (Main.jsonify
          [("error", PyStr "Query processing failed: Failed to query the model.")] 500)
  /\ net_calls (state_after
                  (Main.process_query (Main.app_services model_down)
                     {| Main.get_json := Ok (PyDict [("query", PyStr "Na nga def")]) |})
                  test_state)
     = (net_calls test_state
        ++ [HttpPost (base_url (translation_service test_state))
              (Translator.make_params (translation_service test_state)
                 (PyStr (strip "Na nga def")) "wo" "en") 10;
            GroqCreate (groq_api_key (data_model_service test_state))
              (PyList [PyDict [("role", PyStr "user");
                               ("content", PyStr (strip "Na nga def"))]])
              (model_name (data_model_service test_state))])%list.
Proof.
  apply (proj2 (handler_calls_nothing_after_a_failure model_down
                  [("query", PyStr "Na nga def")] "Na nga def" test_state
                  eq_refl ltac:(discriminate) eq_refl eq_refl)
           (ok_with (PyStr "Na nga def")) "Na nga def").
  - reflexivity.
  - reflexivity.
  - reflexivity.
  - discriminate.
  - exact I.
Defined.

(** *** The construction of the services *)

(** Each service is built from its key in the environment and cannot be
    built without it: a missing key and an empty key both raise a
    [ValueError].  The translation service starts with its counter at zero
    and supports the codes [wo] and [en] and no other; the model client
    uses the model [llama3-8b-8192]. *)
Theorem services_are_built_from_their_keys :
  forall getenv,
    match getenv "GOOGLE_TRANSLATE_API_KEY" with
    | None | Some "" =>
        Translator.init getenv
        = Raise (ValueError "Google Translate API key not found in environment variables")
    | Some key =>
        exists this,
          Translator.init getenv = Ok this
          /\ api_key this = key
          /\ request_id this = 0
          /\ forall lang,
               Translator.supported this lang = true <-> lang = "wo" \/ lang = "en"
    end
    /\ match getenv "GROQ_API_KEY" with
       | None | Some "" =>
           DataModel.init getenv
           = Raise (ValueError "GROQ API key not found in environment variables")
       | Some key =>
           DataModel.init getenv
           = Ok {| groq_api_key := key; model_name := "llama3-8b-8192" |}
       end.
Proof.
  intros getenv. unfold Translator.init, DataModel.init. split.
  - destruct (getenv "GOOGLE_TRANSLATE_API_KEY") as [[| c key] |]; try reflexivity.
    eexists. split; [reflexivity |]. split; [reflexivity |]. split; [reflexivity |].
    intros lang.
    cbv beta iota
        delta [Translator.supported Translator.lang_lookup find option_map fst snd
               supported_languages].
    destruct (String.eqb_spec "wo" lang) as [Hwo | Hwo].
    + split; auto.
    + destruct (String.eqb_spec "en" lang) as [Hen | Hen].
      * split; auto.
      * split; [discriminate | intros [Heq | Heq]; congruence].
  - destruct (getenv "GROQ_API_KEY") as [[| c key] |]; reflexivity.
Qed.
